(** * Plurals: the Agent of [plurals/agent.py]

    A shallow embedding of the [Agent] class of the Plurals package and of
    the module-level dataset loader, together with the properties of the
    specification that concern them.

    Conventions of the embedding.
    - A Python [str] is a Rocq [string]; its characters are code points
      below 256.  [None] is the [None] of an [option].
    - A Python exception is a value of [exn]; code that may raise returns an
      [outcome].  Methods that mutate [self] or print thread a [world].
    - The external collaborators (the LiteLLM completion call, the
      [SmartString.format] helper of [plurals/helpers.py], the expression
      evaluator behind [DataFrame.query]) are variables of the section that
      holds the class. *)

From Stdlib Require Import String Ascii List Bool Arith ZArith QArith Lia Lqa.
From Stdlib Require Import DecimalString.
Import ListNotations.

Close Scope Q_scope.
Local Open Scope nat_scope.
Local Open Scope string_scope.

(** ** Python strings *)

Module PyStr.

(** [c.isspace()] for a code point below 256: the ASCII controls 9-13 and
    28-31, the space, NEL (133) and the no-break space (160). *)
Definition isspace (c : ascii) : bool :=
  let n := nat_of_ascii c in
  (((9 <=? n) && (n <=? 13)) || ((28 <=? n) && (n <=? 32))
   || (n =? 133) || (n =? 160))%nat.

(** [s.lstrip()] *)
Fixpoint lstrip (s : string) : string :=
  match s with
  | EmptyString => EmptyString
  | String c r => if isspace c then lstrip r else s
  end.

(** [s.rstrip()] *)
Fixpoint rstrip (s : string) : string :=
  match s with
  | EmptyString => EmptyString
  | String c r =>
      match rstrip r with
      | EmptyString => if isspace c then EmptyString else String c EmptyString
      | r' => String c r'
      end
  end.

(** [s.strip()] *)
Definition strip (s : string) : string := rstrip (lstrip s).

(** [c.lower()] for a code point below 256: the letters A-Z and the
    Latin-1 capitals 192-222 (the multiplication sign 215 apart) move up
    by 32. *)
Definition lower_char (c : ascii) : ascii :=
  let n := nat_of_ascii c in
  if (((65 <=? n) && (n <=? 90))
      || ((192 <=? n) && (n <=? 222) && negb (n =? 215)))%nat
  then ascii_of_nat (n + 32) else c.

(** [s.lower()] *)
Fixpoint lower (s : string) : string :=
  match s with
  | EmptyString => EmptyString
  | String c r => String (lower_char c) (lower r)
  end.

(** [sub in s] on strings *)
Fixpoint contains (sub s : string) : bool :=
  prefix sub s
  || match s with
     | EmptyString => false
     | String _ r => contains sub r
     end.

(** [bool(s)] for a string *)
Definition nonempty (s : string) : bool :=
  match s with EmptyString => false | _ => true end.

(** [bool(v)] for an optional string: [None] and [""] are falsy. *)
Definition truthy (v : option string) : bool :=
  match v with Some s => nonempty s | None => false end.

(** [str(v)] for an optional string, as an f-string or [str()] shows it. *)
Definition str (v : option string) : string :=
  match v with Some s => s | None => "None" end.

(** [str(z)] for an integer *)
Definition str_int (z : Z) : string := NilZero.string_of_int (Z.to_int z).

(** [sep.join(l)] *)
Fixpoint join (sep : string) (l : list string) : string :=
  match l with
  | [] => ""
  | [s] => s
  | s :: r => s ++ sep ++ join sep r
  end.

(** A newline, the [\n] of the source. *)
Definition nl : string := String (ascii_of_nat 10) EmptyString.

End PyStr.

(** ** Exceptions and results *)

(** The assertions of the module, told apart by their message. *)
Inductive assertion : Type :=
| NeedDataAndMapping   (* "If you use either `ideology` or `query_str` ..." *)
| OnlyOneSelector      (* "You can only pass in one of ideology, ..." *)
| IdeologyNotAllowed   (* "Ideology has to be one of: ..." *)
| BadPersonaTemplate   (* "If you pass in a persona_template, it must ..." *)
| NoDataFound          (* "No data found satisfying conditions" *)
| FilterFailed.        (* "Error filtering data by ideology: ..." *)

Inductive exn : Type :=
| AssertionError (why : assertion)
| ValueError (msg : string)
| AttributeError (msg : string)
| IndexError (msg : string)
| LibraryError (msg : string).   (* raised inside an external library *)

(** [str(e)], the text an exception prints as. *)
Definition exn_text (e : exn) : string :=
  match e with
  | AssertionError NeedDataAndMapping =>
      "If you use either `ideology` or `query_str` you need to provide both a dataframe and a persona mapping to process rows of the dataframe."
  | AssertionError OnlyOneSelector =>
      "You can only pass in one of ideology, query_str, system_instructions, or persona"
  | AssertionError IdeologyNotAllowed => "Ideology has to be one of: ['liberal', 'conservative', 'moderate', 'very liberal', 'very conservative']"
  | AssertionError BadPersonaTemplate =>
      "If you pass in a persona_template, it must contain a ${persona} placeholder or be one of the default templates"
  | AssertionError NoDataFound => "No data found satisfying conditions"
  | AssertionError FilterFailed => "Error filtering data by ideology"
  | ValueError m | AttributeError m | IndexError m | LibraryError m => m
  end.

Inductive outcome (A : Type) : Type :=
| Ret (a : A)
| Raise (e : exn).
Arguments Ret {A} a.
Arguments Raise {A} e.

Definition obind {A B : Type} (o : outcome A) (k : A -> outcome B) : outcome B :=
  match o with
  | Ret a => k a
  | Raise e => Raise e
  end.

Declare Scope outcome_scope.
Delimit Scope outcome_scope with outcome.
Notation "x <- o ;; k" := (obind o (fun x => k))
  (at level 61, o at next level, right associativity) : outcome_scope.
Notation "o ;;; k" := (obind o (fun _ => k))
  (at level 61, right associativity) : outcome_scope.

(** [assert cond, msg] *)
Definition assert (cond : bool) (why : assertion) : outcome unit :=
  if cond then Ret tt else Raise (AssertionError why).

(** What a call into an external library gives: its value, or the message
    of the exception the library raised. *)
Inductive external (A : Type) : Type :=
| Returned (a : A)
| Failed (msg : string).
Arguments Returned {A} a.
Arguments Failed {A} msg.

Definition call {A : Type} (x : external A) : outcome A :=
  match x with
  | Returned a => Ret a
  | Failed msg => Raise (LibraryError msg)
  end.

(** ** The dataset *)

(** One value of a demographic column: text, a whole number, or NaN. *)
Inductive cell : Type :=
| CStr (s : string)
| CInt (z : Z)
| CNaN.

(** One row of the ANES table.  The columns the module computes with have
    their own fields ([None] is NaN); the remaining demographic columns are
    kept by name. *)
Record row : Type := mkRow {
  weight  : option Q;
  ideo5   : option string;
  birthyr : option Z;
  age     : option Z;
  demog   : list (string * cell)
}.

Definition DataFrame : Type := list row.

(** [DATASET.dropna(subset=['weight'], inplace=True)] *)
Definition dropna_weight (d : DataFrame) : DataFrame :=
  filter (fun r => match weight r with Some _ => true | None => false end) d.

(** [DATASET['age'] = 2024 - DATASET['birthyr']] *)
Definition set_age (d : DataFrame) : DataFrame :=
  map (fun r => mkRow (weight r) (ideo5 r)
                      (birthyr r)
                      (option_map (fun y => (2024 - y)%Z) (birthyr r))
                      (demog r)) d.

(** [_load_global_anes_data], from the rows [pd.read_csv] returns to the
    global [DATASET]. *)
Definition _load_global_anes_data (csv : DataFrame) : DataFrame :=
  set_age (dropna_weight csv).

(** [series.isin(values)] on one entry; NaN is in no list of strings. *)
Definition isin (v : option string) (values : list string) : bool :=
  match v with
  | Some s => existsb (String.eqb s) values
  | None => false
  end.

(** [series == value] on one entry *)
Definition col_eq (v : option string) (value : string) : bool :=
  match v with
  | Some s => String.eqb s value
  | None => false
  end.

(** [Agent._filter_data_by_ideology] over the agent's [data]. *)
Definition _filter_data_by_ideology (data : DataFrame) (ideology : string)
  : DataFrame :=
  if String.eqb (PyStr.lower ideology) "liberal" then
    filter (fun r => isin (ideo5 r) ["Liberal"; "Very liberal"]) data
  else if String.eqb (PyStr.lower ideology) "conservative" then
    filter (fun r => isin (ideo5 r) ["Conservative"; "Very conservative"]) data
  else if String.eqb (PyStr.lower ideology) "moderate" then
    filter (fun r => col_eq (ideo5 r) "Moderate") data
  else if String.eqb (PyStr.lower ideology) "very liberal" then
    filter (fun r => col_eq (ideo5 r) "Very liberal") data
  else if String.eqb (PyStr.lower ideology) "very conservative" then
    filter (fun r => col_eq (ideo5 r) "Very conservative") data
  else [].

(** *** Weighted sampling

    [frame.sample(n=1, weights=frame['weight']).iloc[0]] of pandas: a NaN
    weight counts as zero, a negative weight or weights that sum to zero
    are refused, and otherwise the weights are normalised and the row is the
    first whose cumulative weight exceeds the uniform draw [u] of [0, 1). *)

Definition weight_or_zero (r : row) : Q :=
  match weight r with Some w => w | None => 0%Q end.

Definition total_weight (d : DataFrame) : Q :=
  fold_right (fun r acc => Qplus (weight_or_zero r) acc) 0%Q d.

(** [t < w] on rationals, as a boolean *)
Definition Qltb (t w : Q) : bool := negb (Qle_bool w t).

(** The first row whose cumulative weight exceeds [t]. *)
Fixpoint pick (t : Q) (d : DataFrame) : option row :=
  match d with
  | [] => None
  | r :: d' =>
      if Qltb t (weight_or_zero r) then Some r
      else pick (Qminus t (weight_or_zero r)) d'
  end.

Definition sample (u : Q) (d : DataFrame) : outcome row :=
  match d with
  | [] => Raise (ValueError "a must be greater than 0 unless no samples are taken")
  | _ =>
      if existsb (fun r => Qltb (weight_or_zero r) 0%Q) d then
        Raise (ValueError "weight vector many not include negative values")
      else if Qeq_bool (total_weight d) 0%Q then
        Raise (ValueError "Invalid weights: weights sum to zero")
      else
        match pick (Qmult u (total_weight d)) d with
        | Some r => Ret r
        | None => Raise (ValueError "probabilities do not sum to 1")
        end
  end.

(** ** The persona mapping and [_row2persona] *)

(** One entry of [anes-mapping.yaml]: the clause label, the values to skip
    and the recoding table, the last two optional. *)
Record details : Type := mkDetails {
  name        : string;
  bad_vals    : option (list string);
  recode_vals : option (list (string * string))
}.

(** The mapping, in the order of the document. *)
Definition mapping : Type := list (string * details).

Fixpoint assoc {V : Type} (k : string) (l : list (string * V)) : option V :=
  match l with
  | [] => None
  | (k', v) :: r => if String.eqb k k' then Some v else assoc k r
  end.

(** [row.get(var)]: the entry of the column, [None] when the row has no
    such column.  The numeric bookkeeping columns [weight] and [birthyr]
    are not rendered as text by the model and read as absent. *)
Definition row_get (r : row) (var : string) : option cell :=
  if String.eqb var "age" then
    Some (match age r with Some z => CInt z | None => CNaN end)
  else if String.eqb var "ideo5" then
    Some (match ideo5 r with Some s => CStr s | None => CNaN end)
  else assoc var (demog r).

(** [str(value)] *)
Definition str_cell (v : cell) : string :=
  match v with
  | CStr s => s
  | CInt z => PyStr.str_int z
  | CNaN => "nan"
  end.

(** [value = int(value)] for the age column: a number is kept, NaN raises. *)
Definition int_cell (v : cell) : outcome cell :=
  match v with
  | CInt z => Ret (CInt z)
  | CNaN => Raise (ValueError "cannot convert float NaN to integer")
  | CStr s => Raise (ValueError "invalid literal for int() with base 10")
  end.

(** The body of the loop of [_row2persona] for one field: the clause it
    appends, if any. *)
Definition row2persona_field (r : row) (var : string) (d : details)
  : outcome (option string) :=
  (value <- match row_get r var with
            | Some v => if String.eqb var "age"
                        then (v' <- int_cell v ;; Ret (Some v'))
                        else Ret (Some v)
            | None => Ret None
            end ;;
   match value with
   | None => Ret None
   | Some CNaN => Ret None
   | Some v =>
       let bad := match bad_vals d with
                  | Some (b :: bs) => existsb (String.eqb (str_cell v)) (b :: bs)
                  | _ => false
                  end in
       if bad then Ret None
       else
         let shown := match recode_vals d with
                      | Some (p :: ps) =>
                          match assoc (str_cell v) (p :: ps) with
                          | Some v' => v'
                          | None => str_cell v
                          end
                      | _ => str_cell v
                      end in
         Ret (Some (name d ++ " " ++ PyStr.lower shown ++ "."))
   end)%outcome.

Fixpoint row2persona_clauses (r : row) (m : mapping) : outcome (list string) :=
  match m with
  | [] => Ret []
  | (var, d) :: m' =>
      (c <- row2persona_field r var d ;;
       cs <- row2persona_clauses r m' ;;
       Ret (match c with Some s => s :: cs | None => cs end))%outcome
  end.

(** [Agent._row2persona]; a missing mapping ([None]) has no [items]. *)
Definition _row2persona (r : row) (persona_mapping : option mapping)
  : outcome string :=
  match persona_mapping with
  | None => Raise (AttributeError "'NoneType' object has no attribute 'items'")
  | Some m => (cs <- row2persona_clauses r m ;; Ret (PyStr.join " " cs))%outcome
  end.

(** ** The Agent *)

(** [DEFAULTS['persona_template']]: the named persona templates of
    [instructions.yaml]. *)
Definition presets : Type := list (string * string).

(** Keyword options handed on to the completion call. *)
Definition kwargs_t : Type := list (string * string).

(** One message of a completion request. *)
Record message : Type := mkMessage {
  role    : string;
  content : option string
}.

(** What [completion] returns: the choices, each with the content of its
    message. *)
Definition response : Type := list (option string).

Record prompts_t : Type := mkPrompts {
  system : option string;
  user   : option string
}.

(** One record of [Agent._history]. *)
Record history_entry : Type := mkEntry {
  entry_prompts  : prompts_t;
  entry_response : option string;
  entry_model    : string
}.

(** The attributes of an [Agent], as [__init__] sets them. *)
Record Agent : Type := mkAgent {
  model                    : string;
  system_instructions      : option string;
  combination_instructions : option string;
  _history                 : list history_entry;
  persona_mapping          : option mapping;
  task_description         : option string;
  persona                  : option string;
  ideology                 : option string;
  data                     : DataFrame;
  query_str                : option string;
  original_task_description : option string;
  current_task_description  : option string;
  defaults                 : presets;
  persona_template         : option string;
  kwargs                   : kwargs_t
}.

(** Assignments to the attributes the methods write. *)
Definition set_system_instructions (v : option string) (a : Agent) : Agent :=
  mkAgent (model a) v (combination_instructions a) (_history a)
    (persona_mapping a) (task_description a) (persona a) (ideology a) (data a)
    (query_str a) (original_task_description a) (current_task_description a)
    (defaults a) (persona_template a) (kwargs a).

Definition set_persona (v : option string) (a : Agent) : Agent :=
  mkAgent (model a) (system_instructions a) (combination_instructions a)
    (_history a) (persona_mapping a) (task_description a) v (ideology a)
    (data a) (query_str a) (original_task_description a)
    (current_task_description a) (defaults a) (persona_template a) (kwargs a).

Definition set_persona_template (v : option string) (a : Agent) : Agent :=
  mkAgent (model a) (system_instructions a) (combination_instructions a)
    (_history a) (persona_mapping a) (task_description a) (persona a)
    (ideology a) (data a) (query_str a) (original_task_description a)
    (current_task_description a) (defaults a) v (kwargs a).

Definition set_original_task_description (v : option string) (a : Agent)
  : Agent :=
  mkAgent (model a) (system_instructions a) (combination_instructions a)
    (_history a) (persona_mapping a) (task_description a) (persona a)
    (ideology a) (data a) (query_str a) v (current_task_description a)
    (defaults a) (persona_template a) (kwargs a).

Definition set_current_task_description (v : option string) (a : Agent)
  : Agent :=
  mkAgent (model a) (system_instructions a) (combination_instructions a)
    (_history a) (persona_mapping a) (task_description a) (persona a)
    (ideology a) (data a) (query_str a) (original_task_description a) v
    (defaults a) (persona_template a) (kwargs a).

Definition set_history (v : list history_entry) (a : Agent) : Agent :=
  mkAgent (model a) (system_instructions a) (combination_instructions a) v
    (persona_mapping a) (task_description a) (persona a) (ideology a) (data a)
    (query_str a) (original_task_description a) (current_task_description a)
    (defaults a) (persona_template a) (kwargs a).

Definition set_kwargs (v : kwargs_t) (a : Agent) : Agent :=
  mkAgent (model a) (system_instructions a) (combination_instructions a)
    (_history a) (persona_mapping a) (task_description a) (persona a)
    (ideology a) (data a) (query_str a) (original_task_description a)
    (current_task_description a) (defaults a) (persona_template a) v.

(** The arguments of [Agent(...)]; an argument left out has the default of
    the signature ([persona_template] is ["default"], [model] is ["gpt-4o"],
    the others are [None]). *)
Record init_args : Type := mkArgs {
  arg_task                     : option string;
  arg_combination_instructions : option string;
  arg_ideology                 : option string;
  arg_query_str                : option string;
  arg_model                    : string;
  arg_system_instructions      : option string;
  arg_persona_template         : option string;
  arg_persona                  : option string;
  arg_kwargs                   : option kwargs_t
}.

Definition default_args : init_args :=
  mkArgs None None None None "gpt-4o" None (Some "default") None None.

(** What a method runs in: the agent it mutates and the standard output it
    prints to. *)
Record world : Type := mkWorld {
  self   : Agent;
  stdout : list string
}.

(** [Agent.set_task] *)
Definition set_task (task : string) (a : Agent) : Agent :=
  set_current_task_description (Some task)
    (set_original_task_description (Some task) a).

(** The allowed values of [ideology]. *)
Definition allowed_vals : list string :=
  ["liberal"; "conservative"; "moderate"; "very liberal"; "very conservative"].

(** [bool] as [sum] counts it. *)
Definition int_of_bool (b : bool) : nat := if b then 1 else 0.

(** [Agent._validate_system_instructions] *)
Definition _validate_system_instructions (a : Agent) : outcome unit :=
  (* [self.data] is a frame, never [None]; the mapping may be. *)
  ((if PyStr.truthy (ideology a) || PyStr.truthy (query_str a)
    then assert (match persona_mapping a with Some _ => true | None => false end)
                NeedDataAndMapping
    else Ret tt) ;;;
   (if Nat.ltb 1 (int_of_bool (PyStr.truthy (ideology a))
                  + int_of_bool (PyStr.truthy (query_str a))
                  + int_of_bool (PyStr.truthy (persona a))
                  + int_of_bool (PyStr.truthy (system_instructions a)))
    then Raise (AssertionError OnlyOneSelector)
    else Ret tt) ;;;
   (if PyStr.truthy (ideology a)
    then assert (existsb (String.eqb (PyStr.str (ideology a))) allowed_vals)
                IdeologyNotAllowed
    else Ret tt))%outcome.

(** [Agent._validate_templates] *)
Definition _validate_templates (a : Agent) : outcome unit :=
  match persona_template a with
  | Some t =>
      if PyStr.nonempty t then
        let default_templates := map fst (defaults a) in
        assert (PyStr.contains "${persona}" t
                || existsb (String.eqb t) default_templates)
               BadPersonaTemplate
      else Ret tt
  | None => Ret tt
  end.

(** ** Template rendering *)

(** Reads a placeholder name up to its closing brace; gives the name and
    the text after the brace. *)
Fixpoint take_name (s : string) : option (string * string) :=
  match s with
  | EmptyString => None
  | String c r =>
      if Ascii.eqb c "}"%char then Some (EmptyString, r)
      else match take_name r with
           | Some (n, t) => Some (String c n, t)
           | None => None
           end
  end.

Fixpoint substitute (fuel : nat) (kw : list (string * option string))
  (s : string) : string :=
  match fuel with
  | O => s
  | S fuel' =>
      match s with
      | EmptyString => EmptyString
      | String c r =>
          if Ascii.eqb c "$"%char then
            match r with
            | String "{"%char r' =>
                match take_name r' with
                | Some (n, t) =>
                    match assoc n kw with
                    | Some v => PyStr.str v ++ substitute fuel' kw t
                    | None => "${" ++ n ++ "}" ++ substitute fuel' kw t
                    end
                | None => s
                end
            | _ => String c (substitute fuel' kw r)
            end
          else String c (substitute fuel' kw r)
      end
  end.

(** Modelled from the spec: [SmartString.format] of [plurals/helpers.py],
    which is not among the sources.  Placeholders are written [${name}]; a
    placeholder with no value is left as it stands; the result is trimmed of
    leading and trailing whitespace. *)
Definition render (template : string) (kw : list (string * option string))
  : string :=
  PyStr.strip (substitute (String.length template) kw template).

Section AgentClass.

(** *** External collaborators *)

(** [litellm.completion] applied to the model, the messages and the
    keyword options: a response, or an exception. *)
Variable completion : string -> list message -> kwargs_t -> external response.

(** [SmartString(template).format] of [plurals/helpers.py], applied to the
    keyword arguments [kw]. *)
Variable SmartString_format :
  string -> list (string * option string) -> string.

(** [frame.query(expr)] of pandas: the rows that satisfy the expression,
    or an exception when the expression cannot be evaluated. *)
Variable query : DataFrame -> string -> external DataFrame.

(** *** Module globals *)

(** The rows [pd.read_csv] yields for the ANES file, the document
    [anes-mapping.yaml] and the persona templates of [instructions.yaml]. *)
Variable csv : DataFrame.
Variable PERSONA_MAPPING : option mapping.
Variable DEFAULTS : presets.

Definition DATASET : DataFrame := _load_global_anes_data csv.

(** *** Persona resolution *)

(** [Agent._get_random_persona]; [u] is the uniform draw of the sample. *)
Definition _get_random_persona (u : Q) (a : Agent) (d : DataFrame)
  : outcome string :=
  (selected_row <- sample u d ;;
   _row2persona selected_row (persona_mapping a))%outcome.

(** The row [_generate_persona] draws, when it draws one: the filter of
    the selector that is set, the emptiness check and the weighted sample. *)
Definition selected_row (u : Q) (a : Agent) : outcome (option row) :=
  if PyStr.truthy (ideology a) then
    let filtered_data :=
      _filter_data_by_ideology (data a) (PyStr.str (ideology a)) in
    match filtered_data with
    | [] => Raise (AssertionError NoDataFound)
    | _ => (r <- sample u filtered_data ;; Ret (Some r))%outcome
    end
  else if PyStr.truthy (query_str a) then
    (filtered_data <- call (query (data a) (PyStr.str (query_str a))) ;;
     match filtered_data with
     | [] => Raise (AssertionError NoDataFound)
     | _ => (r <- sample u filtered_data ;; Ret (Some r))
     end)%outcome
  else Ret None.

(** [Agent._generate_persona]: the persona it returns and the agent with
    [persona_template] set to the [anes] preset. *)
Definition _generate_persona (u : Q) (a : Agent)
  : outcome (option string * Agent) :=
  let a := set_persona_template (assoc "anes" (defaults a)) a in
  match persona a with
  | Some "random" =>
      (p <- _get_random_persona u a (data a) ;; Ret (Some p, a))%outcome
  | _ =>
      (sel <- selected_row u a ;;
       match sel with
       | Some r => (p <- _row2persona r (persona_mapping a) ;; Ret (Some p, a))
       | None => Ret (None, a)
       end)%outcome
  end.

(** [Agent._set_system_instructions] *)
Definition _set_system_instructions (u : Q) (a : Agent) : outcome Agent :=
  match system_instructions a with
  | Some _ => Ret a
  | None =>
      if negb (PyStr.truthy (system_instructions a))
         && negb (PyStr.truthy (persona a))
         && negb (PyStr.truthy (ideology a))
         && negb (PyStr.truthy (query_str a))
      then Ret (set_system_instructions None a)
      else
        (a <- (match persona a with
               | Some "random" =>
                   (pa <- _generate_persona u a ;;
                    Ret (set_persona (fst pa) (snd pa)))
               | _ => Ret a
               end) ;;
         a <- (if negb (PyStr.truthy (persona a))
               then (pa <- _generate_persona u a ;;
                     Ret (set_persona (fst pa) (snd pa)))
               else Ret a) ;;
         match persona_template a with
         | None =>
             Raise (AttributeError "'NoneType' object has no attribute 'strip'")
         | Some key =>
             let template :=
               PyStr.strip (match assoc key (defaults a) with
                            | Some t => t
                            | None => key
                            end) in
             let a := set_persona_template (Some template) a in
             Ret (set_system_instructions
                    (Some (PyStr.strip
                             (SmartString_format template
                                [("persona", persona a);
                                 ("task", task_description a)])))
                    a)
         end)%outcome
  end.

(** The attribute assignments that open [Agent.__init__]; [kwargs] is
    assigned last, after the instructions are set. *)
Definition init_attributes (args : init_args) : Agent :=
  mkAgent (arg_model args) (arg_system_instructions args)
    (arg_combination_instructions args) [] PERSONA_MAPPING
    (arg_task args) (arg_persona args) (arg_ideology args) DATASET
    (arg_query_str args) (arg_task args) (arg_task args) DEFAULTS
    (arg_persona_template args) [].

(** [Agent.__init__]; [u] is the uniform draw a sampled persona uses. *)
Definition __init__ (args : init_args) (u : Q) : outcome Agent :=
  let a := init_attributes args in
  (_validate_templates a ;;;
   _validate_system_instructions a ;;;
   a <- _set_system_instructions u a ;;
   Ret (set_kwargs (match arg_kwargs args with Some k => k | None => [] end)
          a))%outcome.

(** *** Processing a task *)

(** [response.choices[0].message.content] *)
Definition first_content (r : response) : outcome (option string) :=
  match r with
  | c :: _ => Ret c
  | [] => Raise (IndexError "list index out of range")
  end.

(** The [messages] of [_get_response]. *)
Definition build_messages (a : Agent) (task : option string)
  : list message :=
  if PyStr.truthy (system_instructions a)
  then [mkMessage "system" (system_instructions a); mkMessage "user" task]
  else [mkMessage "user" task].

(** [next((msg['content'] for msg in messages if msg['role'] == r), None)] *)
Definition content_of_role (r : string) (messages : list message)
  : option string :=
  match filter (fun m => String.eqb (role m) r) messages with
  | m :: _ => content m
  | [] => None
  end.

(** [Agent._get_response]: the [try] block is the call, the reading of the
    content and the append to the history; the handler prints and returns
    [None]. *)
Definition _get_response (task : option string) (w : world)
  : outcome (option string) * world :=
  let a := self w in
  let messages := build_messages a task in
  match (r <- call (completion (model a) messages (kwargs a)) ;;
         first_content r)%outcome with
  | Ret c =>
      let prompts := mkPrompts (content_of_role "system" messages)
                               (content_of_role "user" messages) in
      (Ret c,
       mkWorld (set_history (_history a ++ [mkEntry prompts c (model a)]) a)
               (stdout w))
  | Raise e =>
      (Ret None,
       mkWorld a (stdout w
                  ++ ["Error fetching response from LLM: " ++ exn_text e]))
  end.

(** The bookkeeping of [Agent.process] before the model is invoked: the
    optional [set_task] and the update of [current_task_description]. *)
Definition update_task (task : option string) (previous_responses : string)
  (a : Agent) : Agent :=
  let a := match task with
           | Some t => if PyStr.nonempty t then set_task t a else a
           | None => a
           end in
  if PyStr.nonempty previous_responses then
    let combined_responses :=
      SmartString_format (PyStr.str (combination_instructions a))
        [("previous_responses", Some previous_responses)] in
    let joined :=
      if PyStr.truthy (current_task_description a)
      then PyStr.str (current_task_description a)
             ++ PyStr.nl ++ combined_responses
      else PyStr.str (original_task_description a)
             ++ PyStr.nl ++ combined_responses in
    set_current_task_description (Some (PyStr.strip joined)) a
  else set_current_task_description (original_task_description a) a.

(** [Agent.process] *)
Definition process (task : option string) (previous_responses : string)
  (w : world) : outcome (option string) * world :=
  let a := update_task task previous_responses (self w) in
  _get_response (current_task_description a) (mkWorld a (stdout w)).

End AgentClass.

(** ** Read-only views *)

(** A value together with the messages [warnings.warn] was called with to
    obtain it, in order. *)
Definition warned (A : Type) : Type := (A * list string)%type.

Definition no_history_warning : string :=
  "Be aware: No Agent history was found since tasks have not been processed yet.".

Definition no_responses_warning : string :=
  "No history found. Please process a task first!".

(** The property [Agent.history] *)
Definition history (a : Agent) : warned (option (list history_entry)) :=
  match _history a with
  | [] => (None, [no_history_warning])
  | h => (Some h, [])
  end.

(** [history[i]]: the entry at an index, or an [IndexError]. *)
Definition index (h : list history_entry) (i : nat) : outcome history_entry :=
  match nth_error h i with
  | Some e => Ret e
  | None => Raise (IndexError "list index out of range")
  end.

(** [[history[i]['response'] for i in l]] *)
Fixpoint responses_at (h : list history_entry) (l : list nat)
  : outcome (list (option string)) :=
  match l with
  | [] => Ret []
  | i :: l' =>
      (e <- index h i ;;
       rs <- responses_at h l' ;;
       Ret (entry_response e :: rs))%outcome
  end.

(** The property [Agent.responses]; [range(len(history))] is
    [seq 0 (length history)]. *)
Definition responses (a : Agent)
  : warned (outcome (option (list (option string)))) :=
  let (h, ws) := history a in
  match h with
  | Some (e :: h') =>
      ((rs <- responses_at (e :: h') (seq 0 (length (e :: h'))) ;;
        Ret (Some rs))%outcome, ws)
  | _ => (Ret None, (ws ++ [no_responses_warning])%list)
  end.

(** The dictionary [Agent.info] returns, one field per key. *)
Record info_t : Type := mkInfo {
  info_original_task            : option string;
  info_current_task_description : option string;
  info_system_instructions      : option string;
  info_history                  : option (list history_entry);
  info_persona                  : option string;
  info_ideology                 : option string;
  info_query_str                : option string;
  info_model                    : string;
  info_persona_template         : option string;
  info_kwargs                   : kwargs_t
}.

(** The property [Agent.info] *)
Definition info (a : Agent) : warned info_t :=
  let (h, ws) := history a in
  (mkInfo (original_task_description a) (current_task_description a)
          (system_instructions a) h (persona a) (ideology a) (query_str a)
          (model a) (persona_template a) (kwargs a),
   ws).

(** ** Fixtures: a small dataset, mapping and template table *)

Definition row_liberal : row :=
  mkRow (Some (3 # 2)%Q) (Some "Liberal") (Some 1967%Z) None
        [("gender", CStr "Woman"); ("inputstate", CStr "Michigan")].
Definition row_very_liberal : row :=
  mkRow (Some (1 # 2)%Q) (Some "Very liberal") (Some 1990%Z) None
        [("gender", CStr "Man"); ("inputstate", CStr "Ohio")].
Definition row_moderate : row :=
  mkRow (Some 1%Q) (Some "Moderate") (Some 1980%Z) None
        [("gender", CStr "Man"); ("inputstate", CStr "Texas")].
Definition row_conservative : row :=
  mkRow (Some 2%Q) (Some "Conservative") (Some 1955%Z) None
        [("gender", CStr "Woman"); ("inputstate", CStr "Utah")].
Definition row_very_conservative : row :=
  mkRow (Some (3 # 4)%Q) (Some "Very conservative") (Some 1948%Z) None
        [("gender", CStr "Man"); ("inputstate", CStr "New York")].
Definition row_not_sure : row :=
  mkRow (Some 1%Q) (Some "Not sure") (Some 2001%Z) None
        [("gender", CStr "Woman"); ("inputstate", CStr "Maine")].
Definition row_unweighted : row :=
  mkRow None (Some "Liberal") (Some 1970%Z) None [("gender", CStr "Man")].
Definition row_zero_weight : row :=
  mkRow (Some 0%Q) (Some "Moderate") (Some 1975%Z) None [("gender", CStr "Man")].

Definition csv_small : DataFrame :=
  [row_liberal; row_unweighted; row_very_liberal; row_moderate;
   row_conservative; row_very_conservative; row_not_sure].

Definition mapping_small : mapping :=
  [("age", mkDetails "Your age is" None None);
   ("gender", mkDetails "Your gender is" None None);
   ("ideo5", mkDetails "Your ideology is" (Some ["Not sure"]) None);
   ("inputstate", mkDetails "You live in the state of" None
                    (Some [("Ohio", "the Buckeye State")]))].

Definition presets_small : presets :=
  [("default", "${persona}");
   ("anes", "PERSONA: ${persona} CONSTRAINTS: be plain.");
   ("empathetic", "PERSONA: ${persona} CONSTRAINTS: be empathetic.")].

(** *** Fixtures for [process] *)

(** A completion service that is down, and one that answers. *)
Definition completion_timeout
  : string -> list message -> kwargs_t -> external response :=
  fun _ _ _ => Failed "Request timed out.".

Definition completion_hello
  : string -> list message -> kwargs_t -> external response :=
  fun _ _ _ => Returned [Some "Hello!"].

(** A query evaluator for expressions of the form [inputstate=='S']. *)
Definition query_by_state (d : DataFrame) (expr : string)
  : external DataFrame :=
  Returned
    (filter (fun r => match assoc "inputstate" (demog r) with
                      | Some (CStr st) =>
                          String.eqb expr ("inputstate=='" ++ st ++ "'")
                      | _ => false
                      end) d).

(** [Agent(task=t, combination_instructions="Previous: ${previous_responses}")]
    as [__init__] leaves it. *)
Definition agent_with_task (t : string) : Agent :=
  mkAgent "gpt-4o" None (Some "Previous: ${previous_responses}") []
          (Some mapping_small) (Some t) None None
          (_load_global_anes_data csv_small) None (Some t) (Some t)
          presets_small (Some "default") [].

(** *** Fixtures for [Agent(...)] *)

(** [Agent(ideology=..., persona=...)] and the like: the named arguments
    given, the others at their defaults. *)
Definition args_ideology (b : string) : init_args :=
  mkArgs (Some "Say hello") None (Some b) None "gpt-4o" None (Some "default")
         None None.

Definition args_ideology_and_persona (b p : string) : init_args :=
  mkArgs (Some "Say hello") None (Some b) None "gpt-4o" None (Some "default")
         (Some p) None.

Definition args_ideology_and_template (b t : string) : init_args :=
  mkArgs (Some "Say hello") None (Some b) None "gpt-4o" None (Some t)
         None None.

Definition args_query (q : string) : init_args :=
  mkArgs (Some "Say hello") None None (Some q) "gpt-4o" None (Some "default")
         None None.

Definition args_persona (p : string) : init_args :=
  mkArgs (Some "Say hello") None None None "gpt-4o" None (Some "default")
         (Some p) None.

(** A file with no moderate respondent. *)
Definition csv_no_moderate : DataFrame :=
  [row_liberal; row_conservative; row_unweighted].

(** [row_liberal] and [row_zero_weight] as the loader leaves them, with
    the age computed. *)
Definition row_liberal_loaded : row :=
  mkRow (Some (3 # 2)%Q) (Some "Liberal") (Some 1967%Z) (Some 57%Z)
        [("gender", CStr "Woman"); ("inputstate", CStr "Michigan")].


(** The construction of the fixtures: the spec's renderer, the state query,
    the small file, mapping and templates. *)
Definition new_agent (args : init_args) : outcome Agent :=
  __init__ render query_by_state csv_small (Some mapping_small) presets_small
    args 0%Q.

(** [Agent(task="Say hello")], [Agent(system_instructions=...)] and
    [Agent(persona=..., persona_template=...)]. *)
Definition args_task_only : init_args :=
  mkArgs (Some "Say hello") None None None "gpt-4o" None (Some "default")
         None None.

Definition args_system (s : string) : init_args :=
  mkArgs (Some "Say hello") None None None "gpt-4o" (Some s) (Some "default")
         None None.

Definition args_persona_and_template (p : string) (t : option string)
  : init_args :=
  mkArgs (Some "Say hello") None None None "gpt-4o" None t (Some p) None.

(** [Agent(task="Say hello", persona="a moderate voter from Michigan")]
    as [__init__] returns it on the fixtures. *)
Definition agent_michigan : Agent :=
  mkAgent "gpt-4o" (Some "a moderate voter from Michigan") None []
          (Some mapping_small) (Some "Say hello")
          (Some "a moderate voter from Michigan") None
          (_load_global_anes_data csv_small) None (Some "Say hello")
          (Some "Say hello") presets_small (Some "${persona}") [].

(** [Agent(task="Say hello", ideology="liberal")] and
    [Agent(task="Say hello", persona="random")] as [__init__] returns them
    on the fixtures with the draw [0]: both describe the first respondent
    of the file. *)
Definition persona_of_row_liberal : string :=
  "Your age is 57. Your gender is woman. Your ideology is liberal. You live in the state of michigan.".

Definition agent_liberal : Agent :=
  mkAgent "gpt-4o"
          (Some ("PERSONA: " ++ persona_of_row_liberal
                 ++ " CONSTRAINTS: be plain."))
          None [] (Some mapping_small) (Some "Say hello")
          (Some persona_of_row_liberal) (Some "liberal")
          (_load_global_anes_data csv_small) None (Some "Say hello")
          (Some "Say hello") presets_small
          (Some "PERSONA: ${persona} CONSTRAINTS: be plain.") [].

Definition agent_random : Agent :=
  mkAgent "gpt-4o"
          (Some ("PERSONA: " ++ persona_of_row_liberal
                 ++ " CONSTRAINTS: be plain."))
          None [] (Some mapping_small) (Some "Say hello")
          (Some persona_of_row_liberal) None
          (_load_global_anes_data csv_small) None (Some "Say hello")
          (Some "Say hello") presets_small
          (Some "PERSONA: ${persona} CONSTRAINTS: be plain.") [].

(** A respondent who gave no birth year. *)
Definition row_no_birth_year : row :=
  mkRow (Some 1%Q) (Some "Moderate") None None [("gender", CStr "Man")].

(** The error of [int(value)] on a NaN. *)
Definition nan_to_integer : exn :=
  ValueError "cannot convert float NaN to integer".

(** ** What construction leaves alone *)

(** Reads the attributes of the agent [init_attributes] builds. *)
Ltac read_attributes :=
  cbn [init_attributes model system_instructions combination_instructions
         _history persona_mapping task_description persona ideology data
         query_str original_task_description current_task_description
         defaults persona_template kwargs] in *.

(** The two agents agree on every attribute apart from the persona, the
    persona template and the system instructions. *)
Definition same_setup (a b : Agent) : Prop :=
  model a = model b
  /\ combination_instructions a = combination_instructions b
  /\ _history a = _history b
  /\ persona_mapping a = persona_mapping b
  /\ task_description a = task_description b
  /\ ideology a = ideology b
  /\ data a = data b
  /\ query_str a = query_str b
  /\ original_task_description a = original_task_description b
  /\ current_task_description a = current_task_description b
  /\ defaults a = defaults b
  /\ kwargs a = kwargs b.

(** ** What a computation may raise *)

(** Every exception the computation can end in satisfies [P]. *)
Definition raises_only {A : Type} (P : exn -> Prop) (o : outcome A) : Prop :=
  match o with
  | Ret _ => True
  | Raise e => P e
  end.

(** The exception is not the one of the selector check. *)
Definition not_selector_conflict (e : exn) : Prop :=
  e <> AssertionError OnlyOneSelector.

(** * Properties *)

(** ** Runs on the fixtures *)

Example strip_ex : PyStr.strip "  a b
 " = "a b".
Proof. reflexivity. Qed.

Example lower_ex : PyStr.lower "Very Liberal" = "very liberal".
Proof. reflexivity. Qed.

Example contains_ex : PyStr.contains "${persona}" "You are ${persona}." = true.
Proof. reflexivity. Qed.

Example str_int_ex : PyStr.str_int 57 = "57" /\ PyStr.str_int (-3) = "-3".
Proof. split; reflexivity. Qed.

Example render_ex :
  render "You are ${persona}. Do ${task}. " [("persona", Some "a voter")]
  = "You are a voter. Do ${task}.".
Proof. reflexivity. Qed.

Example load_ex :
  map age (_load_global_anes_data csv_small)
  = [Some 57; Some 34; Some 44; Some 69; Some 76; Some 23]%Z.
Proof. reflexivity. Qed.

Example filter_ex :
  map ideo5 (_filter_data_by_ideology (_load_global_anes_data csv_small)
               "conservative")
  = [Some "Conservative"; Some "Very conservative"].
Proof. reflexivity. Qed.

Example row2persona_ex :
  _row2persona (mkRow (Some 1%Q) (Some "Very liberal") (Some 1990%Z)
                  (Some 34%Z) [("gender", CStr "Man"); ("inputstate", CStr "Ohio")])
    (Some mapping_small)
  = Ret "Your age is 34. Your gender is man. Your ideology is very liberal. You live in the state of the buckeye state.".
Proof. reflexivity. Qed.

Example sample_ex :
  sample (1 # 2)%Q [row_liberal; row_zero_weight; row_moderate]
  = Ret row_liberal
  /\ sample (3 # 5)%Q [row_liberal; row_zero_weight; row_moderate]
     = Ret row_moderate.
Proof. split; reflexivity. Qed.


Lemma isin_spec (v : option string) (values : list string) :
  isin v values = true <-> exists s, v = Some s /\ In s values.
Proof.
  destruct v as [s|]; simpl.
  - rewrite existsb_exists. split.
    + intros [x [Hin Heq]]. apply String.eqb_eq in Heq. subst x.
      exists s. split; [reflexivity | assumption].
    + intros [x [Heq Hin]]. injection Heq as <-.
      exists s. split; [assumption | apply String.eqb_refl].
  - split; [discriminate | intros [s [H _]]; discriminate].
Qed.

Lemma col_eq_spec (v : option string) (value : string) :
  col_eq v value = true <-> v = Some value.
Proof.
  destruct v as [s|]; simpl.
  - rewrite String.eqb_eq. split; [intros -> | intros [= ->]]; reflexivity.
  - split; discriminate.
Qed.

(** C7.  [set_task t] sets both task descriptions to [t] and changes no
    other attribute of the agent: the persona, the system instructions and
    every other field are the ones the agent had. *)
Theorem set_task_only_changes_task (a : Agent) (t : string) :
  original_task_description (set_task t a) = Some t
  /\ current_task_description (set_task t a) = Some t
  /\ persona (set_task t a) = persona a
  /\ system_instructions (set_task t a) = system_instructions a
  /\ persona_template (set_task t a) = persona_template a
  /\ ideology (set_task t a) = ideology a
  /\ query_str (set_task t a) = query_str a
  /\ persona_mapping (set_task t a) = persona_mapping a
  /\ data (set_task t a) = data a
  /\ defaults (set_task t a) = defaults a
  /\ task_description (set_task t a) = task_description a
  /\ combination_instructions (set_task t a) = combination_instructions a
  /\ model (set_task t a) = model a
  /\ kwargs (set_task t a) = kwargs a
  /\ _history (set_task t a) = _history a.
Proof. repeat split. Qed.

(** C2.  Filtering by a valid ideology bucket keeps exactly the rows of the
    data whose [ideo5] matches it: [liberal] keeps "Liberal" and
    "Very liberal", [conservative] keeps "Conservative" and
    "Very conservative", and [moderate], [very liberal] and
    [very conservative] each keep one value. *)
Theorem filter_by_ideology_matches_bucket (d : DataFrame) (r : row) :
  (In r (_filter_data_by_ideology d "liberal")
   <-> In r d /\ (ideo5 r = Some "Liberal" \/ ideo5 r = Some "Very liberal"))
  /\ (In r (_filter_data_by_ideology d "conservative")
      <-> In r d /\ (ideo5 r = Some "Conservative"
                     \/ ideo5 r = Some "Very conservative"))
  /\ (In r (_filter_data_by_ideology d "moderate")
      <-> In r d /\ ideo5 r = Some "Moderate")
  /\ (In r (_filter_data_by_ideology d "very liberal")
      <-> In r d /\ ideo5 r = Some "Very liberal")
  /\ (In r (_filter_data_by_ideology d "very conservative")
      <-> In r d /\ ideo5 r = Some "Very conservative").
Proof.
  unfold _filter_data_by_ideology; simpl.
  rewrite !filter_In, !isin_spec, !col_eq_spec.
  repeat split; try tauto.
  - destruct H as [_ [s [Hs Hv]]]. simpl in Hv.
    destruct Hv as [<- | [<- | []]]; tauto.
  - destruct H as [_ [Hv | Hv]]; eexists; (split; [exact Hv | simpl; tauto]).
  - destruct H as [_ [s [Hs Hv]]]. simpl in Hv.
    destruct Hv as [<- | [<- | []]]; tauto.
  - destruct H as [_ [Hv | Hv]]; eexists; (split; [exact Hv | simpl; tauto]).
Qed.

Example process_ex :
  process completion_hello render None "" (mkWorld (agent_with_task "Say hello") [])
  = (Ret (Some "Hello!"),
     mkWorld (set_history
                [mkEntry (mkPrompts None (Some "Say hello")) (Some "Hello!")
                         "gpt-4o"]
                (agent_with_task "Say hello")) []).
Proof. reflexivity. Qed.

(** *** [_get_response] *)

Section ProcessFacts.

Variable completion : string -> list message -> kwargs_t -> external response.
Variable fmt : string -> list (string * option string) -> string.

Lemma _get_response_raises (task : option string) (w : world) (msg : string) :
  completion (model (self w)) (build_messages (self w) task) (kwargs (self w))
  = Failed msg ->
  _get_response completion task w
  = (Ret None,
     mkWorld (self w)
             (stdout w ++ ["Error fetching response from LLM: " ++ msg])).
Proof. intros H. unfold _get_response. rewrite H. reflexivity. Qed.

Lemma _get_response_no_choice (task : option string) (w : world) :
  completion (model (self w)) (build_messages (self w) task) (kwargs (self w))
  = Returned [] ->
  _get_response completion task w
  = (Ret None,
     mkWorld (self w)
             (stdout w ++ ["Error fetching response from LLM: "
                           ++ "list index out of range"])).
Proof. intros H. unfold _get_response. rewrite H. reflexivity. Qed.

Lemma _get_response_returns (task : option string) (w : world)
  (c : option string) (cs : response) :
  completion (model (self w)) (build_messages (self w) task) (kwargs (self w))
  = Returned (c :: cs) ->
  _get_response completion task w
  = (Ret c,
     mkWorld (set_history
                (_history (self w)
                 ++ [mkEntry
                       (mkPrompts
                          (content_of_role "system"
                             (build_messages (self w) task))
                          (content_of_role "user"
                             (build_messages (self w) task)))
                       c (model (self w))])
                (self w))
             (stdout w)).
Proof. intros H. unfold _get_response. rewrite H. reflexivity. Qed.

(** [update_task] touches the two task descriptions only. *)
Lemma update_task_frame (task : option string) (prev : string) (a : Agent) :
  model (update_task fmt task prev a) = model a
  /\ kwargs (update_task fmt task prev a) = kwargs a
  /\ system_instructions (update_task fmt task prev a) = system_instructions a
  /\ persona (update_task fmt task prev a) = persona a
  /\ _history (update_task fmt task prev a) = _history a.
Proof.
  unfold update_task.
  destruct task as [[|c t]|]; destruct prev; repeat split.
Qed.

Lemma _get_response_keeps_tasks (task : option string) (w : world) :
  current_task_description (self (snd (_get_response completion task w)))
  = current_task_description (self w)
  /\ original_task_description (self (snd (_get_response completion task w)))
     = original_task_description (self w).
Proof.
  unfold _get_response.
  destruct (completion _ _ _) as [[|c cs]|msg]; split; reflexivity.
Qed.

(** C10, as the code has it.  An empty-string [task] is ignored by
    [process]: [set_task] is not called, the call behaves as the call with
    no task, and [original_task_description] stays what it was, while a
    non-empty [task] replaces it.  The current task description is assigned
    by every call all the same: with no previous responses it is reset to
    the stored original task, and with previous responses it becomes the
    stored task joined with the rendered block and stripped. *)
Theorem process_empty_task_keeps_stored_task (prev : string) (w : world) :
  process completion fmt (Some "") prev w = process completion fmt None prev w
  /\ original_task_description
       (self (snd (process completion fmt (Some "") prev w)))
     = original_task_description (self w)
  /\ current_task_description
       (self (snd (process completion fmt (Some "") "" w)))
     = original_task_description (self w)
  /\ (forall (c : ascii) (t : string),
        original_task_description
          (self (snd (process completion fmt (Some (String c t)) prev w)))
        = Some (String c t))
  /\ (forall (c : ascii) (p : string),
        current_task_description
          (self (snd (process completion fmt (Some "") (String c p) w)))
        = Some (PyStr.strip
                  (PyStr.str
                     (if PyStr.truthy (current_task_description (self w))
                      then current_task_description (self w)
                      else original_task_description (self w))
                   ++ PyStr.nl
                   ++ fmt (PyStr.str (combination_instructions (self w)))
                          [("previous_responses", Some (String c p))]))).
Proof.
  split; [reflexivity|].
  unfold process.
  repeat split; intros;
    match goal with
    | |- context [_get_response completion ?t ?w'] =>
        destruct (_get_response_keeps_tasks t w') as [Hc Ho]
    end; rewrite ?Hc, ?Ho; simpl; unfold update_task; simpl.
  - destruct prev; reflexivity.
  - reflexivity.
  - destruct prev; reflexivity.
  - destruct (PyStr.truthy (current_task_description (self w))); reflexivity.
Qed.

(** C4.  When the completion call raises, [process] returns [None] and
    raises nothing: the error is printed and the agent is the one the task
    bookkeeping left.  The same holds when the response has no choice to
    read.  When the call succeeds, [process] returns the content of the
    first choice. *)
Theorem process_returns_None_when_completion_raises
  (task : option string) (prev : string) (w : world) :
  let a := update_task fmt task prev (self w) in
  let messages := build_messages a (current_task_description a) in
    (forall msg : string,
      completion (model a) messages (kwargs a) = Failed msg ->
      process completion fmt task prev w
      = (Ret None,
         mkWorld a (stdout w ++ ["Error fetching response from LLM: " ++ msg])))
  /\ (completion (model a) messages (kwargs a) = Returned [] ->
      fst (process completion fmt task prev w) = Ret None)
  /\ (forall (c : option string) (cs : response),
        completion (model a) messages (kwargs a) = Returned (c :: cs) ->
        fst (process completion fmt task prev w) = Ret c).
Proof.
  intros a messages. unfold process. fold a.
  repeat split.
  - intros e H. apply (_get_response_raises _ (mkWorld a (stdout w)) e H).
  - intros H.
    rewrite (_get_response_no_choice _ (mkWorld a (stdout w)) H). reflexivity.
  - intros c cs H.
    rewrite (_get_response_returns _ (mkWorld a (stdout w)) c cs H).
    reflexivity.
Qed.

(** C5, as the code has it.  A failed invocation leaves the history as it
    was: nothing is appended when the completion call raises or the response
    has no choice.  Only a successful invocation appends an entry, with the
    prompts, the response and the model. *)
Theorem failed_invocation_leaves_history_unchanged
  (task : option string) (prev : string) (w : world) :
  let a := update_task fmt task prev (self w) in
  let messages := build_messages a (current_task_description a) in
  let after := self (snd (process completion fmt task prev w)) in
    (forall msg : string,
      completion (model a) messages (kwargs a) = Failed msg ->
      _history after = _history (self w))
  /\ (completion (model a) messages (kwargs a) = Returned [] ->
      _history after = _history (self w))
  /\ (forall (c : option string) (cs : response),
        completion (model a) messages (kwargs a) = Returned (c :: cs) ->
        _history after
        = (_history (self w)
           ++ [mkEntry (mkPrompts (content_of_role "system" messages)
                                  (content_of_role "user" messages))
                       c (model (self w))])%list).
Proof.
  intros a messages after. unfold after, process. fold a.
  destruct (update_task_frame task prev (self w))
    as [Hm [_ [_ [_ Hh]]]]. fold a in Hm, Hh.
  repeat split.
  - intros e H.
    rewrite (_get_response_raises _ (mkWorld a (stdout w)) e H). exact Hh.
  - intros H.
    rewrite (_get_response_no_choice _ (mkWorld a (stdout w)) H). exact Hh.
  - intros c cs H.
    rewrite (_get_response_returns _ (mkWorld a (stdout w)) c cs H).
    simpl. rewrite Hh, Hm. reflexivity.
Qed.

(** C1, as the code has it.  With previous responses, the combination
    instructions are rendered with them, the block is joined by a newline to
    the current task (to the original task when the current one is unset or
    empty), and the joined text is stripped of leading and trailing
    whitespace; with no previous responses the current task is reset to the
    original task.  The tasks meant are those after the optional
    [set_task]. *)
Theorem process_joins_then_strips
  (task : option string) (prev : string) (w : world) :
  let a := match task with
           | Some t => if PyStr.nonempty t then set_task t (self w) else self w
           | None => self w
           end in
  let after := self (snd (process completion fmt task prev w)) in
  (prev <> "" ->
   current_task_description after
   = Some (PyStr.strip
             (PyStr.str (if PyStr.truthy (current_task_description a)
                         then current_task_description a
                         else original_task_description a)
              ++ PyStr.nl
              ++ fmt (PyStr.str (combination_instructions a))
                     [("previous_responses", Some prev)])))
  /\ (prev = "" ->
      current_task_description after = original_task_description a).
Proof.
  intros a after. unfold after, process.
  match goal with
  | |- context [_get_response completion ?t ?w'] =>
      destruct (_get_response_keeps_tasks t w') as [Hc _]
  end.
  rewrite Hc. simpl. unfold update_task. fold a.
  split; intros H.
  - destruct prev as [|c p]; [contradiction|]. simpl.
    destruct (PyStr.truthy (current_task_description a)); reflexivity.
  - subst prev. reflexivity.
Qed.

End ProcessFacts.

(** Witness of C4: a service that is down gives [None] and a printed line;
    one that answers gives its text. *)
Lemma process_returns_None_when_completion_raises_witness :
  process completion_timeout render None ""
    (mkWorld (agent_with_task "Say hello") [])
  = (Ret None,
     mkWorld (agent_with_task "Say hello")
             ["Error fetching response from LLM: Request timed out."])
  /\ fst (process completion_hello render None ""
            (mkWorld (agent_with_task "Say hello") []))
     = Ret (Some "Hello!").
Proof.
  split.
  - exact (proj1 (process_returns_None_when_completion_raises
                    completion_timeout render None ""
                    (mkWorld (agent_with_task "Say hello") []))
             "Request timed out." eq_refl).
  - exact (proj2 (proj2 (process_returns_None_when_completion_raises
                           completion_hello render None ""
                           (mkWorld (agent_with_task "Say hello") [])))
             (Some "Hello!") [] eq_refl).
Defined.

(** Counterexample to C5 as stated: the service is down, [process] returns
    [None], and the history after the call is the empty history the agent
    had before it; no failed entry is recorded. *)
Lemma failed_invocation_not_recorded :
  fst (process completion_timeout render None ""
         (mkWorld (agent_with_task "Say hello") []))
  = Ret None
  /\ _history (self (snd (process completion_timeout render None ""
                            (mkWorld (agent_with_task "Say hello") []))))
     = _history (agent_with_task "Say hello")
  /\ _history (self (snd (process completion_timeout render None ""
                            (mkWorld (agent_with_task "Say hello") []))))
     = [].
Proof. repeat split. Qed.

(** Witness of the amended C5. *)
Lemma failed_invocation_leaves_history_unchanged_witness :
  _history (self (snd (process completion_timeout render (Some "Say bye") "Hi"
                         (mkWorld (agent_with_task "Say hello") []))))
  = []
  /\ _history (self (snd (process completion_hello render None ""
                            (mkWorld (agent_with_task "Say hello") []))))
     = [mkEntry (mkPrompts None (Some "Say hello")) (Some "Hello!") "gpt-4o"].
Proof.
  split.
  - exact (proj1 (failed_invocation_leaves_history_unchanged
                    completion_timeout render (Some "Say bye") "Hi"
                    (mkWorld (agent_with_task "Say hello") []))
             "Request timed out." eq_refl).
  - exact (proj2 (proj2 (failed_invocation_leaves_history_unchanged
                           completion_hello render None ""
                           (mkWorld (agent_with_task "Say hello") [])))
             (Some "Hello!") [] eq_refl).
Defined.

(** Counterexample to C1 as stated: the task starts with a newline (a
    triple-quoted text), and after [process] the current task is not the
    task followed by a newline and the rendered block; the leading newline
    has been stripped. *)
Lemma process_does_not_just_append :
  let task := PyStr.nl ++ "Say hello" in
  let block := render "Previous: ${previous_responses}"
                 [("previous_responses", Some "Hi there")] in
  let after := self (snd (process completion_hello render None "Hi there"
                            (mkWorld (agent_with_task task) []))) in
  current_task_description after <> Some (task ++ PyStr.nl ++ block)
  /\ current_task_description after
     = Some ("Say hello" ++ PyStr.nl ++ "Previous: Hi there").
Proof. split; [discriminate | reflexivity]. Qed.

(** Witness of the amended C1. *)
Lemma process_joins_then_strips_witness :
  current_task_description
    (self (snd (process completion_hello render None "Hi there"
                  (mkWorld (agent_with_task (PyStr.nl ++ "Say hello")) []))))
  = Some ("Say hello" ++ PyStr.nl ++ "Previous: Hi there")
  /\ current_task_description
       (self (snd (process completion_hello render (Some "Say bye") ""
                     (mkWorld (agent_with_task "Say hello") []))))
     = Some "Say bye".
Proof.
  split.
  - exact (proj1 (process_joins_then_strips completion_hello render None
                    "Hi there"
                    (mkWorld (agent_with_task (PyStr.nl ++ "Say hello")) []))
             ltac:(discriminate)).
  - exact (proj2 (process_joins_then_strips completion_hello render
                    (Some "Say bye") ""
                    (mkWorld (agent_with_task "Say hello") []))
             eq_refl).
Defined.

(** Counterexample to C10 as stated: after a call with previous responses
    the current task holds the joined text, and a call with the empty task
    and no previous responses then overwrites it with the original task;
    the current task description is assigned although the task argument is
    empty.  The original task is untouched throughout. *)
Lemma empty_task_still_overwrites_current_task :
  let w1 := snd (process completion_hello render None "first"
                   (mkWorld (agent_with_task "Say hello") [])) in
  let w2 := snd (process completion_hello render (Some "") "" w1) in
  current_task_description (self w1)
  = Some ("Say hello" ++ PyStr.nl ++ "Previous: first")
  /\ current_task_description (self w2) = Some "Say hello"
  /\ current_task_description (self w2) <> current_task_description (self w1)
  /\ original_task_description (self w2) = Some "Say hello".
Proof.
  repeat split. discriminate.
Qed.

(** ** The dataset and the weighted sample *)

Lemma Qltb_true (t w : Q) : Qltb t w = true -> (t < w)%Q.
Proof.
  unfold Qltb. intros H. apply negb_true_iff in H.
  apply Qnot_le_lt. intros Hle. apply Qle_bool_iff in Hle. congruence.
Qed.

Lemma Qltb_false (t w : Q) : Qltb t w = false -> (w <= t)%Q.
Proof.
  unfold Qltb. intros H. apply negb_false_iff in H.
  apply Qle_bool_iff. exact H.
Qed.

Lemma pick_positive (d : DataFrame) :
  forall (t : Q) (r : row),
    (0 <= t)%Q -> pick t d = Some r -> In r d /\ (0 < weight_or_zero r)%Q.
Proof.
  induction d as [|x d IH]; simpl; intros t r Ht H; [discriminate|].
  destruct (Qltb t (weight_or_zero x)) eqn:E.
  - injection H as <-. apply Qltb_true in E.
    split; [left; reflexivity | eapply Qle_lt_trans; eassumption].
  - apply Qltb_false in E.
    destruct (IH (t - weight_or_zero x)%Q r) as [Hin Hw]; [lra | exact H |].
    split; [right; exact Hin | exact Hw].
Qed.

Lemma total_weight_nonneg (d : DataFrame) :
  existsb (fun r => Qltb (weight_or_zero r) 0%Q) d = false ->
  (0 <= total_weight d)%Q.
Proof.
  induction d as [|x d IH]; intros H.
  - apply Qle_refl.
  - simpl in H. apply orb_false_iff in H. destruct H as [Hx Hd].
    apply Qltb_false in Hx. specialize (IH Hd).
    change (total_weight (x :: d))
      with (weight_or_zero x + total_weight d)%Q.
    lra.
Qed.

Lemma positive_weight_is_present (r : row) :
  (0 < weight_or_zero r)%Q -> exists w, weight r = Some w /\ (0 < w)%Q.
Proof.
  unfold weight_or_zero. destruct (weight r) as [w|]; intros H.
  - exists w. split; [reflexivity | exact H].
  - exfalso. lra.
Qed.

Lemma sample_selects_positive (u : Q) (d : DataFrame) (r : row) :
  (0 <= u)%Q -> sample u d = Ret r ->
  In r d /\ exists w, weight r = Some w /\ (0 < w)%Q.
Proof.
  intros Hu. unfold sample.
  destruct d as [|x d]; [discriminate|].
  destruct (existsb _ (x :: d)) eqn:Hneg; [discriminate|].
  destruct (Qeq_bool _ _); [discriminate|].
  destruct (pick _ (x :: d)) as [r'|] eqn:Hp; [|discriminate].
  intros [= ->].
  apply pick_positive in Hp.
  - destruct Hp as [Hin Hw]. split; [exact Hin|].
    apply positive_weight_is_present. exact Hw.
  - apply Qmult_le_0_compat; [exact Hu | apply total_weight_nonneg; exact Hneg].
Qed.


(** ** Construction *)

Lemma raises_only_bind {A B : Type} (P : exn -> Prop) (o : outcome A)
  (k : A -> outcome B) :
  raises_only P o -> (forall a, raises_only P (k a)) ->
  raises_only P (obind o k).
Proof. destruct o as [a|e]; simpl; auto. Qed.

Lemma sample_raises (u : Q) (d : DataFrame) :
  raises_only not_selector_conflict (sample u d).
Proof.
  unfold sample. destruct d as [|x d]; [simpl; discriminate|].
  destruct (existsb _ _); [simpl; discriminate|].
  destruct (Qeq_bool _ _); [simpl; discriminate|].
  destruct (pick _ _); simpl; [exact I | discriminate].
Qed.

Lemma row2persona_field_raises (r : row) (var : string) (d : details) :
  raises_only not_selector_conflict (row2persona_field r var d).
Proof.
  unfold row2persona_field. apply raises_only_bind.
  - destruct (row_get r var) as [v|]; [|exact I].
    destruct (String.eqb var "age"); [|exact I].
    destruct v; simpl; try exact I; discriminate.
  - intros [v|]; [|exact I]. destruct v; try exact I.
    + destruct (match bad_vals d with Some (b :: bs) => _ | _ => false end);
        exact I.
    + destruct (match bad_vals d with Some (b :: bs) => _ | _ => false end);
        exact I.
Qed.

Lemma row2persona_clauses_raises (r : row) (m : mapping) :
  raises_only not_selector_conflict (row2persona_clauses r m).
Proof.
  induction m as [|[var d] m IH]; simpl; [exact I|].
  apply raises_only_bind; [apply row2persona_field_raises|].
  intros c. apply raises_only_bind; [exact IH|]. intros cs. exact I.
Qed.

Lemma _row2persona_raises (r : row) (pm : option mapping) :
  raises_only not_selector_conflict (_row2persona r pm).
Proof.
  destruct pm as [m|]; simpl; [|discriminate].
  apply raises_only_bind; [apply row2persona_clauses_raises|].
  intros cs. exact I.
Qed.

Lemma call_raises {A : Type} (x : external A) :
  raises_only not_selector_conflict (call x).
Proof. destruct x; simpl; [exact I | discriminate]. Qed.

Section InitFacts.

Variable fmt : string -> list (string * option string) -> string.
Variable query : DataFrame -> string -> external DataFrame.
Variable csv : DataFrame.
Variable PERSONA_MAPPING : option mapping.
Variable DEFAULTS : presets.

Lemma selected_row_raises (u : Q) (a : Agent) :
  raises_only not_selector_conflict (selected_row query u a).
Proof.
  unfold selected_row.
  destruct (PyStr.truthy (ideology a)).
  - destruct (_filter_data_by_ideology _ _); [simpl; discriminate|].
    apply raises_only_bind; [apply sample_raises | intros; exact I].
  - destruct (PyStr.truthy (query_str a)); [|exact I].
    apply raises_only_bind; [apply call_raises|].
    intros [|x d]; [simpl; discriminate|].
    apply raises_only_bind; [apply sample_raises | intros; exact I].
Qed.

Lemma _generate_persona_raises (u : Q) (a : Agent) :
  raises_only not_selector_conflict (_generate_persona query u a).
Proof.
  unfold _generate_persona.
  assert (Hsel : forall a',
             raises_only not_selector_conflict
               (obind (selected_row query u a')
                  (fun sel =>
                     match sel with
                     | Some r =>
                         obind (_row2persona r (persona_mapping a'))
                           (fun p => Ret (Some p, a'))
                     | None => Ret (None, a')
                     end))).
  { intros a'. apply raises_only_bind; [apply selected_row_raises|].
    intros [r|]; [|exact I].
    apply raises_only_bind; [apply _row2persona_raises | intros; exact I]. }
  assert (Hrnd : forall a',
             raises_only not_selector_conflict
               (obind (_get_random_persona u a' (data a'))
                  (fun p => Ret (Some p, a')))).
  { intros a'. apply raises_only_bind; [|intros; exact I].
    unfold _get_random_persona.
    apply raises_only_bind; [apply sample_raises|].
    intros r. apply _row2persona_raises. }
  set (a' := set_persona_template _ a).
  destruct (persona a') as [p|]; [|apply Hsel].
  destruct (String.eqb p "random") eqn:E.
  - apply String.eqb_eq in E. subst p. apply Hrnd.
  - repeat (destruct p as [|[[] [] [] [] [] [] [] []] p];
            try apply Hsel; try discriminate E).
Qed.

Lemma _set_system_instructions_raises (u : Q) (a : Agent) :
  raises_only not_selector_conflict (_set_system_instructions fmt query u a).
Proof.
  unfold _set_system_instructions.
  destruct (system_instructions a); [exact I|].
  destruct (_ && _); [exact I|].
  assert (Hgen : forall a',
             raises_only not_selector_conflict
               (obind (_generate_persona query u a')
                  (fun pa => Ret (set_persona (fst pa) (snd pa))))).
  { intros a'. apply raises_only_bind;
      [apply _generate_persona_raises | intros; exact I]. }
  apply raises_only_bind.
  - destruct (persona a) as [p|]; [|exact I].
    destruct (String.eqb p "random") eqn:E.
    + apply String.eqb_eq in E. subst p. apply Hgen.
    + repeat (destruct p as [|[[] [] [] [] [] [] [] []] p];
              try exact I; try discriminate E).
  - intros a1. apply raises_only_bind.
    + destruct (negb _); [apply Hgen | exact I].
    + intros a2. destruct (persona_template a2); simpl; [exact I | discriminate].
Qed.

Lemma _validate_templates_raises (a : Agent) :
  _validate_templates a = Ret tt
  \/ _validate_templates a = Raise (AssertionError BadPersonaTemplate).
Proof.
  unfold _validate_templates, assert.
  destruct (persona_template a) as [t|]; [|left; reflexivity].
  destruct (PyStr.nonempty t); [|left; reflexivity].
  destruct (_ || _); [left | right]; reflexivity.
Qed.

Lemma _validate_system_instructions_conflict (a : Agent) :
  1 < length (filter PyStr.truthy
                [system_instructions a; persona a; ideology a; query_str a]) ->
  (persona_mapping a <> None ->
   _validate_system_instructions a = Raise (AssertionError OnlyOneSelector))
  /\ (_validate_system_instructions a
        = Raise (AssertionError OnlyOneSelector)
      \/ _validate_system_instructions a
         = Raise (AssertionError NeedDataAndMapping)).
Proof.
  unfold _validate_system_instructions, assert. simpl.
  destruct (PyStr.truthy (system_instructions a)),
    (PyStr.truthy (persona a)), (PyStr.truthy (ideology a)),
    (PyStr.truthy (query_str a)); simpl; intros Hn; try lia;
    destruct (persona_mapping a); simpl; split;
    try (intros H; congruence); auto.
Qed.

Lemma _validate_system_instructions_single (a : Agent) :
  length (filter PyStr.truthy
            [system_instructions a; persona a; ideology a; query_str a]) <= 1 ->
  _validate_system_instructions a <> Raise (AssertionError OnlyOneSelector).
Proof.
  unfold _validate_system_instructions, assert. simpl.
  destruct (PyStr.truthy (system_instructions a)),
    (PyStr.truthy (persona a)), (PyStr.truthy (ideology a)),
    (PyStr.truthy (query_str a)); simpl; intros Hn; try lia;
    destruct (persona_mapping a); simpl; try discriminate;
    repeat match goal with
      | |- context [if ?b then _ else _] => destruct b
      end; simpl; discriminate.
Qed.

(** C3.  Constructing an Agent with more than one of [system_instructions],
    [persona], [ideology] and [query_str] non-empty raises an assertion
    error (the selector check itself, once the template check and the
    mapping check have passed), and [__init__] reaches no model call.  With
    at most one of them non-empty the selector check raises nothing. *)
Theorem init_rejects_more_than_one_selector (args : init_args) (u : Q) :
  let n := length (filter PyStr.truthy
                     [arg_system_instructions args; arg_persona args;
                      arg_ideology args; arg_query_str args]) in
  let a := init_attributes csv PERSONA_MAPPING DEFAULTS args in
  (1 < n ->
   exists why,
     __init__ fmt query csv PERSONA_MAPPING DEFAULTS args u
     = Raise (AssertionError why))
  /\ (1 < n ->
      _validate_templates a = Ret tt -> PERSONA_MAPPING <> None ->
      __init__ fmt query csv PERSONA_MAPPING DEFAULTS args u
      = Raise (AssertionError OnlyOneSelector))
  /\ (n <= 1 ->
      __init__ fmt query csv PERSONA_MAPPING DEFAULTS args u
      <> Raise (AssertionError OnlyOneSelector)).
Proof.
  intros n a. unfold __init__. fold a.
  repeat split.
  - intros Hn.
    destruct (_validate_system_instructions_conflict a Hn) as [_ Hv].
    destruct (_validate_templates_raises a) as [Ht | Ht]; rewrite Ht; simpl.
    + destruct Hv as [Hv | Hv]; rewrite Hv; simpl; eexists; reflexivity.
    + eexists; reflexivity.
  - intros Hn Ht Hm. rewrite Ht. simpl.
    destruct (_validate_system_instructions_conflict a Hn) as [Hv _].
    rewrite (Hv Hm). reflexivity.
  - intros Hn.
    pose proof (_validate_system_instructions_single a Hn) as Hv.
    destruct (_validate_templates_raises a) as [Ht | Ht]; rewrite Ht; simpl;
      [|discriminate].
    destruct (_validate_system_instructions a) as [[]|e] eqn:E; simpl;
      [|congruence].
    pose proof (_set_system_instructions_raises u a) as Hs.
    destruct (_set_system_instructions fmt query u a) as [a'|e]; simpl;
      [discriminate|].
    simpl in Hs. unfold not_selector_conflict in Hs. congruence.
Qed.

Lemma selected_row_ignores_template (u : Q) (a : Agent) (t : option string) :
  selected_row query u (set_persona_template t a) = selected_row query u a.
Proof. reflexivity. Qed.

Lemma selected_row_empty_ideology (u : Q) (a : Agent) :
  PyStr.truthy (ideology a) = true ->
  _filter_data_by_ideology (data a) (PyStr.str (ideology a)) = [] ->
  selected_row query u a = Raise (AssertionError NoDataFound).
Proof. intros Ht He. unfold selected_row. rewrite Ht, He. reflexivity. Qed.

Lemma selected_row_empty_query (u : Q) (a : Agent) :
  PyStr.truthy (ideology a) = false ->
  PyStr.truthy (query_str a) = true ->
  query (data a) (PyStr.str (query_str a)) = Returned [] ->
  selected_row query u a = Raise (AssertionError NoDataFound).
Proof.
  intros Hi Hq He. unfold selected_row. rewrite Hi, Hq, He. reflexivity.
Qed.

Lemma _generate_persona_propagates (u : Q) (a : Agent) (e : exn) :
  PyStr.truthy (persona a) = false ->
  selected_row query u a = Raise e ->
  _generate_persona query u a = Raise e.
Proof.
  intros Hp Hs. unfold _generate_persona.
  rewrite selected_row_ignores_template, Hs.
  change (persona (set_persona_template (assoc "anes" (defaults a)) a))
    with (persona a).
  destruct (persona a) as [[|c p]|]; try discriminate Hp; reflexivity.
Qed.

Lemma _set_system_instructions_propagates (u : Q) (a : Agent) (e : exn) :
  system_instructions a = None ->
  PyStr.truthy (persona a) = false ->
  PyStr.truthy (ideology a) || PyStr.truthy (query_str a) = true ->
  selected_row query u a = Raise e ->
  _set_system_instructions fmt query u a = Raise e.
Proof.
  intros Hsi Hp Hsel Hs. unfold _set_system_instructions.
  rewrite Hsi, Hp. simpl.
  apply orb_true_iff in Hsel.
  replace (negb (PyStr.truthy (ideology a))
           && negb (PyStr.truthy (query_str a))) with false
    by (destruct Hsel as [-> | ->]; simpl;
        [reflexivity | apply eq_sym, andb_false_r]).
  replace (match persona a with
           | Some "random" =>
               obind (_generate_persona query u a)
                 (fun pa => Ret (set_persona (fst pa) (snd pa)))
           | _ => Ret a
           end) with (Ret a)
    by (destruct (persona a) as [[|c p]|]; try discriminate Hp; reflexivity).
  simpl. rewrite Hp. simpl.
  rewrite (_generate_persona_propagates u a e Hp Hs). reflexivity.
Qed.

Lemma In_allowed_vals_truthy (b : string) :
  In b allowed_vals ->
  PyStr.nonempty b = true /\ existsb (String.eqb b) allowed_vals = true.
Proof.
  intros H. split.
  - simpl in H. repeat destruct H as [<- | H]; try reflexivity. contradiction.
  - apply existsb_exists. exists b. split; [exact H | apply String.eqb_refl].
Qed.

(** C8.  When the persona is to be drawn by ideology or by query string
    (no system instructions, no literal persona, a valid template and a
    mapping at hand) and the filter keeps no row, [__init__] raises the
    assertion "No data found satisfying conditions": the error comes out of
    construction, where no model call is made, and is not recovered. *)
Theorem init_fails_when_no_row_matches (args : init_args) (u : Q) :
  arg_system_instructions args = None ->
  PyStr.truthy (arg_persona args) = false ->
  _validate_templates (init_attributes csv PERSONA_MAPPING DEFAULTS args)
  = Ret tt ->
  PERSONA_MAPPING <> None ->
  (forall b : string,
      arg_ideology args = Some b -> In b allowed_vals ->
      PyStr.truthy (arg_query_str args) = false ->
      _filter_data_by_ideology (DATASET csv) b = [] ->
      __init__ fmt query csv PERSONA_MAPPING DEFAULTS args u
      = Raise (AssertionError NoDataFound))
  /\ (forall q : string,
        PyStr.truthy (arg_ideology args) = false ->
        arg_query_str args = Some q -> q <> "" ->
        query (DATASET csv) q = Returned [] ->
        __init__ fmt query csv PERSONA_MAPPING DEFAULTS args u
        = Raise (AssertionError NoDataFound)).
Proof.
  intros Hsi Hp Ht Hm.
  set (a := init_attributes csv PERSONA_MAPPING DEFAULTS args) in *.
  assert (Hpm : exists m, persona_mapping a = Some m).
  { simpl. destruct PERSONA_MAPPING as [m|]; [exists m; reflexivity|].
    contradiction. }
  destruct Hpm as [m Hpm].
  split.
  - intros b Hb Hin Hq He.
    destruct (In_allowed_vals_truthy b Hin) as [Hne Hal].
    assert (Hv : _validate_system_instructions a = Ret tt).
    { unfold _validate_system_instructions, assert. rewrite Hpm.
      change (ideology a) with (arg_ideology args).
      change (query_str a) with (arg_query_str args).
      change (persona a) with (arg_persona args).
      change (system_instructions a) with (arg_system_instructions args).
      rewrite Hb, Hq, Hp, Hsi. cbn [PyStr.truthy PyStr.str]. rewrite Hne, Hal.
      reflexivity. }
    unfold __init__. fold a. rewrite Ht, Hv. simpl.
    rewrite (_set_system_instructions_propagates u a
               (AssertionError NoDataFound)); try reflexivity; try assumption.
    + change (ideology a) with (arg_ideology args). rewrite Hb. simpl.
      rewrite Hne. reflexivity.
    + apply selected_row_empty_ideology.
      * change (ideology a) with (arg_ideology args). rewrite Hb. exact Hne.
      * change (ideology a) with (arg_ideology args). rewrite Hb. exact He.
  - intros q Hi Hq Hne He.
    assert (Hqt : PyStr.truthy (Some q) = true).
    { destruct q; [contradiction | reflexivity]. }
    assert (Hv : _validate_system_instructions a = Ret tt).
    { unfold _validate_system_instructions, assert. rewrite Hpm.
      change (ideology a) with (arg_ideology args).
      change (query_str a) with (arg_query_str args).
      change (persona a) with (arg_persona args).
      change (system_instructions a) with (arg_system_instructions args).
      rewrite Hq, Hqt, Hi, Hp, Hsi. reflexivity. }
    unfold __init__. fold a. rewrite Ht, Hv. simpl.
    rewrite (_set_system_instructions_propagates u a
               (AssertionError NoDataFound)); try reflexivity; try assumption.
    + change (ideology a) with (arg_ideology args).
      change (query_str a) with (arg_query_str args).
      rewrite Hi, Hq, Hqt. reflexivity.
    + apply selected_row_empty_query.
      * exact Hi.
      * change (query_str a) with (arg_query_str args). rewrite Hq. exact Hqt.
      * change (query_str a) with (arg_query_str args). rewrite Hq. exact He.
Qed.


End InitFacts.

(** Witness of C3: [Agent(ideology="liberal", persona="x")] fails on the
    selector check; [Agent(persona=...)] alone does not. *)
Lemma init_rejects_more_than_one_selector_witness :
  (exists why,
      new_agent (args_ideology_and_persona "liberal" "x")
      = Raise (AssertionError why))
  /\ new_agent (args_ideology_and_persona "liberal" "x")
     = Raise (AssertionError OnlyOneSelector)
  /\ new_agent (args_persona "a moderate voter from Michigan")
     <> Raise (AssertionError OnlyOneSelector).
Proof.
  split; [|split].
  - exact (proj1 (init_rejects_more_than_one_selector render query_by_state
                    csv_small (Some mapping_small) presets_small
                    (args_ideology_and_persona "liberal" "x") 0%Q)
             ltac:(simpl; lia)).
  - exact (proj1 (proj2 (init_rejects_more_than_one_selector render
                           query_by_state csv_small (Some mapping_small)
                           presets_small
                           (args_ideology_and_persona "liberal" "x") 0%Q))
             ltac:(simpl; lia) eq_refl ltac:(discriminate)).
  - exact (proj2 (proj2 (init_rejects_more_than_one_selector render
                           query_by_state csv_small (Some mapping_small)
                           presets_small
                           (args_persona "a moderate voter from Michigan")
                           0%Q))
             ltac:(simpl; lia)).
Defined.

(** Witness of C8: no moderate respondent in the file, and no respondent
    from a state that does not exist. *)
Lemma init_fails_when_no_row_matches_witness :
  __init__ render query_by_state csv_no_moderate (Some mapping_small)
    presets_small (args_ideology "moderate") 0%Q
  = Raise (AssertionError NoDataFound)
  /\ new_agent (args_query "inputstate=='Atlantis'")
     = Raise (AssertionError NoDataFound).
Proof.
  split.
  - exact (proj1 (init_fails_when_no_row_matches render query_by_state
                    csv_no_moderate (Some mapping_small) presets_small
                    (args_ideology "moderate") 0%Q
                    eq_refl eq_refl eq_refl ltac:(discriminate))
             "moderate" eq_refl ltac:(simpl; tauto) eq_refl eq_refl).
  - exact (proj2 (init_fails_when_no_row_matches render query_by_state
                    csv_small (Some mapping_small) presets_small
                    (args_query "inputstate=='Atlantis'") 0%Q
                    eq_refl eq_refl eq_refl ltac:(discriminate))
             "inputstate=='Atlantis'" eq_refl eq_refl ltac:(discriminate)
             eq_refl).
Defined.



(** C6, at the failing input.  [Agent(ideology="liberal",
    persona_template="empathetic")] and the same call with the caller's own
    template ["You are ${persona}."] are both constructed with the [anes]
    preset as their template: the system instructions are the [anes] text
    rendered with the persona, not the template that was chosen. *)
Theorem dataset_persona_renders_anes_not_chosen_template :
  exists a_named a_own : Agent,
    new_agent (args_ideology_and_template "liberal" "empathetic")
    = Ret a_named
    /\ new_agent (args_ideology_and_template "liberal" "You are ${persona}.")
       = Ret a_own
    /\ persona_template a_named = assoc "anes" presets_small
    /\ persona_template a_own = assoc "anes" presets_small
    /\ system_instructions a_named
       = Some (render "PERSONA: ${persona} CONSTRAINTS: be plain."
                 [("persona", persona a_named)])
    /\ system_instructions a_named
       <> Some (render "PERSONA: ${persona} CONSTRAINTS: be empathetic."
                  [("persona", persona a_named)])
    /\ system_instructions a_own
       = Some (render "PERSONA: ${persona} CONSTRAINTS: be plain."
                 [("persona", persona a_own)])
    /\ system_instructions a_own
       <> Some (render "You are ${persona}." [("persona", persona a_own)]).
Proof.
  eexists. eexists.
  split; [vm_compute; reflexivity|].
  split; [vm_compute; reflexivity|].
  repeat split; try (vm_compute; reflexivity); vm_compute; discriminate.
Qed.

(** ** The template of a dataset persona *)

Section TemplateChoice.

Variable fmt : string -> list (string * option string) -> string.
Variable query : DataFrame -> string -> external DataFrame.
Variable csv : DataFrame.
Variable PERSONA_MAPPING : option mapping.
Variable DEFAULTS : presets.

Lemma _generate_persona_sets_anes (u : Q) (a : Agent)
  (pa : option string * Agent) :
  _generate_persona query u a = Ret pa ->
  snd pa = set_persona_template (assoc "anes" (defaults a)) a.
Proof.
  unfold _generate_persona.
  set (a' := set_persona_template _ a).
  assert (Hsel :
           obind (selected_row query u a')
             (fun sel =>
                match sel with
                | Some r =>
                    obind (_row2persona r (persona_mapping a'))
                      (fun p => Ret (Some p, a'))
                | None => Ret (None, a')
                end) = Ret pa -> snd pa = a').
  { destruct (selected_row query u a') as [[r|]|e]; cbn [obind];
      [| intros [= <-]; reflexivity | discriminate].
    destruct (_row2persona r (persona_mapping a')) as [p|e]; cbn [obind];
      [intros [= <-]; reflexivity | discriminate]. }
  assert (Hrnd :
           obind (_get_random_persona u a' (data a'))
             (fun p => Ret (Some p, a')) = Ret pa -> snd pa = a').
  { destruct (_get_random_persona u a' (data a')) as [p|e]; cbn [obind];
      [intros [= <-]; reflexivity | discriminate]. }
  destruct (persona a') as [p|]; [|exact Hsel].
  destruct (String.eqb p "random") eqn:E.
  - apply String.eqb_eq in E. subst p. exact Hrnd.
  - repeat (destruct p as [|[[] [] [] [] [] [] [] []] p];
            try exact Hsel; try discriminate E).
Qed.

(** Whenever [_set_system_instructions] resolves the persona through
    [_generate_persona], the template it renders is the [anes] preset,
    whatever [persona_template] the agent was given. *)
Lemma _set_system_instructions_uses_anes (u : Q) (a a' : Agent) :
  system_instructions a = None ->
  persona a = Some "random" \/ PyStr.truthy (persona a) = false ->
  PyStr.truthy (persona a) || PyStr.truthy (ideology a)
  || PyStr.truthy (query_str a) = true ->
  _set_system_instructions fmt query u a = Ret a' ->
  exists anes : string,
    assoc "anes" (defaults a) = Some anes
    /\ persona_template a'
       = Some (PyStr.strip (match assoc anes (defaults a) with
                            | Some t => t
                            | None => anes
                            end))
    /\ system_instructions a'
       = Some (PyStr.strip
                 (fmt (PyStr.strip (match assoc anes (defaults a) with
                                    | Some t => t
                                    | None => anes
                                    end))
                    [("persona", persona a');
                     ("task", task_description a)])).
Proof.
  intros Hsi Hp Hany. unfold _set_system_instructions. rewrite Hsi.
  replace (negb (PyStr.truthy None) && negb (PyStr.truthy (persona a))
           && negb (PyStr.truthy (ideology a))
           && negb (PyStr.truthy (query_str a))) with false
    by (destruct (PyStr.truthy (persona a)), (PyStr.truthy (ideology a)),
          (PyStr.truthy (query_str a)); simpl in *; congruence).
  (* the agent after the two conditional calls of [_generate_persona] *)
  assert (Hfinish : forall a2 : Agent,
             defaults a2 = defaults a ->
             task_description a2 = task_description a ->
             persona_template a2 = assoc "anes" (defaults a) ->
             match persona_template a2 with
             | None =>
                 Raise (AttributeError
                          "'NoneType' object has no attribute 'strip'")
             | Some key =>
                 Ret (set_system_instructions
                        (Some (PyStr.strip
                                 (fmt (PyStr.strip
                                         (match assoc key (defaults a2) with
                                          | Some t => t
                                          | None => key
                                          end))
                                    [("persona",
                                      persona
                                        (set_persona_template
                                           (Some (PyStr.strip
                                                    (match
                                                        assoc key (defaults a2)
                                                      with
                                                      | Some t => t
                                                      | None => key
                                                      end))) a2));
                                     ("task",
                                      task_description
                                        (set_persona_template
                                           (Some (PyStr.strip
                                                    (match
                                                        assoc key (defaults a2)
                                                      with
                                                      | Some t => t
                                                      | None => key
                                                      end))) a2))])))
                        (set_persona_template
                           (Some (PyStr.strip
                                    (match assoc key (defaults a2) with
                                     | Some t => t
                                     | None => key
                                     end))) a2))
             end = Ret a' ->
             exists anes : string,
               assoc "anes" (defaults a) = Some anes
               /\ persona_template a'
                  = Some (PyStr.strip (match assoc anes (defaults a) with
                                       | Some t => t
                                       | None => anes
                                       end))
               /\ system_instructions a'
                  = Some (PyStr.strip
                            (fmt (PyStr.strip
                                    (match assoc anes (defaults a) with
                                     | Some t => t
                                     | None => anes
                                     end))
                               [("persona", persona a');
                                ("task", task_description a)]))).
  { intros a2 Hd Ht Hpt. rewrite Hpt, Hd.
    destruct (assoc "anes" (defaults a)) as [anes|]; [|discriminate].
    intros [= <-]. exists anes. cbn. rewrite Ht. repeat split. }
  (* one call of [_generate_persona] followed by the assignment *)
  assert (Hgen : forall a1 a2 : Agent,
             defaults a1 = defaults a ->
             task_description a1 = task_description a ->
             obind (_generate_persona query u a1)
               (fun pa => Ret (set_persona (fst pa) (snd pa))) = Ret a2 ->
             defaults a2 = defaults a
             /\ task_description a2 = task_description a
             /\ persona_template a2 = assoc "anes" (defaults a)).
  { intros a1 a2 Hd Ht.
    destruct (_generate_persona query u a1) as [pa|e] eqn:E; cbn [obind];
      [|discriminate].
    intros [= <-]. rewrite (_generate_persona_sets_anes u a1 pa E).
    cbn. rewrite Hd, Ht. repeat split. }
  destruct Hp as [Hp | Hp].
  - (* persona == "random" *)
    rewrite Hp.
    destruct (obind (_generate_persona query u a)
                (fun pa => Ret (set_persona (fst pa) (snd pa))))
      as [a1|e] eqn:E1; cbn [obind]; [|discriminate].
    destruct (Hgen a a1 eq_refl eq_refl E1) as [Hd1 [Ht1 Hpt1]].
    destruct (negb (PyStr.truthy (persona a1))).
    + destruct (obind (_generate_persona query u a1)
                  (fun pa => Ret (set_persona (fst pa) (snd pa))))
        as [a2|e] eqn:E2; cbn [obind]; [|discriminate].
      destruct (Hgen a1 a2 Hd1 Ht1 E2) as [Hd2 [Ht2 Hpt2]].
      apply Hfinish; assumption.
    + cbn [obind]. apply Hfinish; assumption.
  - (* no literal persona: ideology or query string *)
    replace (match persona a with
             | Some "random" =>
                 obind (_generate_persona query u a)
                   (fun pa => Ret (set_persona (fst pa) (snd pa)))
             | _ => Ret a
             end) with (Ret a)
      by (destruct (persona a) as [[|c p]|]; try discriminate Hp; reflexivity).
    cbn [obind]. rewrite Hp. cbn [negb].
    destruct (obind (_generate_persona query u a)
                (fun pa => Ret (set_persona (fst pa) (snd pa))))
      as [a1|e] eqn:E1; cbn [obind]; [|discriminate].
    destruct (Hgen a a1 eq_refl eq_refl E1) as [Hd1 [Ht1 Hpt1]].
    apply Hfinish; assumption.
Qed.

End TemplateChoice.

(** * Further properties of the class *)

(** ** What [process] records and what it leaves alone *)

Lemma content_of_role_user (a : Agent) (task : option string) :
  content_of_role "user" (build_messages a task) = task.
Proof.
  unfold content_of_role, build_messages.
  destruct (PyStr.truthy (system_instructions a)); reflexivity.
Qed.

Lemma content_of_role_system (a : Agent) (task : option string) :
  content_of_role "system" (build_messages a task)
  = if PyStr.truthy (system_instructions a) then system_instructions a
    else None.
Proof.
  unfold content_of_role, build_messages.
  destruct (PyStr.truthy (system_instructions a)); reflexivity.
Qed.

Lemma responses_at_shift (e : history_entry) (h : list history_entry)
  (l : list nat) :
  responses_at (e :: h) (map S l) = responses_at h l.
Proof.
  induction l as [|i l IH]; [reflexivity|].
  simpl map. cbn [responses_at]. rewrite IH. reflexivity.
Qed.

Lemma responses_at_range (h : list history_entry) :
  responses_at h (seq 0 (length h)) = Ret (map entry_response h).
Proof.
  induction h as [|e h IH]; [reflexivity|].
  cbn [length seq]. rewrite <- seq_shift.
  cbn [responses_at index nth_error obind].
  rewrite responses_at_shift, IH. reflexivity.
Qed.

Lemma responses_nonempty (a : Agent) (e : history_entry)
  (h : list history_entry) :
  _history a = e :: h ->
  responses a = (Ret (Some (map entry_response (e :: h))), []).
Proof.
  intros H. unfold responses, history. rewrite H.
  rewrite responses_at_range. reflexivity.
Qed.

Section ProcessViews.

Variable completion : string -> list message -> kwargs_t -> external response.
Variable fmt : string -> list (string * option string) -> string.

Lemma update_task_identity (task : option string) (prev : string) (a : Agent) :
  let a' := update_task fmt task prev a in
  persona a' = persona a
  /\ system_instructions a' = system_instructions a
  /\ persona_template a' = persona_template a
  /\ ideology a' = ideology a
  /\ query_str a' = query_str a
  /\ combination_instructions a' = combination_instructions a
  /\ task_description a' = task_description a
  /\ model a' = model a
  /\ kwargs a' = kwargs a
  /\ data a' = data a
  /\ persona_mapping a' = persona_mapping a
  /\ defaults a' = defaults a.
Proof.
  unfold update_task.
  destruct task as [[|c t]|]; destruct prev; repeat split.
Qed.

Lemma _get_response_identity (task : option string) (w : world) :
  let a' := self (snd (_get_response completion task w)) in
  persona a' = persona (self w)
  /\ system_instructions a' = system_instructions (self w)
  /\ persona_template a' = persona_template (self w)
  /\ ideology a' = ideology (self w)
  /\ query_str a' = query_str (self w)
  /\ combination_instructions a' = combination_instructions (self w)
  /\ task_description a' = task_description (self w)
  /\ model a' = model (self w)
  /\ kwargs a' = kwargs (self w)
  /\ data a' = data (self w)
  /\ persona_mapping a' = persona_mapping (self w)
  /\ defaults a' = defaults (self w).
Proof.
  unfold _get_response.
  destruct (completion _ _ _) as [[|c cs]|msg]; repeat split.
Qed.

(** X1.  A call of [process] changes the task descriptions and the history
    and nothing else: the persona, the system instructions, the persona
    template, the selectors, the combination instructions, the model and
    its options, the data and the tables are those the agent had; and a
    call without a task leaves [original_task_description] as it was. *)
Theorem process_keeps_identity (task : option string) (prev : string)
  (w : world) :
  let a' := self (snd (process completion fmt task prev w)) in
  persona a' = persona (self w)
  /\ system_instructions a' = system_instructions (self w)
  /\ persona_template a' = persona_template (self w)
  /\ ideology a' = ideology (self w)
  /\ query_str a' = query_str (self w)
  /\ combination_instructions a' = combination_instructions (self w)
  /\ task_description a' = task_description (self w)
  /\ model a' = model (self w)
  /\ kwargs a' = kwargs (self w)
  /\ data a' = data (self w)
  /\ persona_mapping a' = persona_mapping (self w)
  /\ defaults a' = defaults (self w)
  /\ original_task_description
       (self (snd (process completion fmt None prev w)))
     = original_task_description (self w).
Proof.
  unfold process.
  pose proof (update_task_identity task prev (self w)) as Hu.
  pose proof (_get_response_identity
                (current_task_description
                   (update_task fmt task prev (self w)))
                (mkWorld (update_task fmt task prev (self w)) (stdout w)))
    as Hg.
  cbn zeta in Hu, Hg. cbn [self] in Hg.
  destruct Hu as (U1 & U2 & U3 & U4 & U5 & U6 & U7 & U8 & U9 & U10 & U11 & U12).
  destruct Hg as (G1 & G2 & G3 & G4 & G5 & G6 & G7 & G8 & G9 & G10 & G11 & G12).
  cbn zeta.
  repeat split; try congruence.
  match goal with
  | |- context [_get_response completion ?t ?w'] =>
      destruct (_get_response_keeps_tasks completion t w') as [_ Ho]
  end.
  rewrite Ho. cbn [self]. unfold update_task.
  destruct prev; reflexivity.
Qed.

(** X2.  A successful call of [process] returns the content of the first
    choice and appends one entry to the history: its user prompt is the
    agent's current task description after the call, its system prompt is
    the system instructions (absent when they are unset or empty), its
    response is the value returned and its model is the agent's model. *)
Theorem process_records_what_it_sent (task : option string) (prev : string)
  (w : world) (c : option string) (cs : response) :
  let a := update_task fmt task prev (self w) in
  let a' := self (snd (process completion fmt task prev w)) in
  completion (model a) (build_messages a (current_task_description a))
    (kwargs a) = Returned (c :: cs) ->
  fst (process completion fmt task prev w) = Ret c
  /\ _history a'
     = (_history (self w)
        ++ [mkEntry
              (mkPrompts
                 (if PyStr.truthy (system_instructions (self w))
                  then system_instructions (self w) else None)
                 (current_task_description a'))
              c (model (self w))])%list
  /\ stdout (snd (process completion fmt task prev w)) = stdout w.
Proof.
  intros a a' H. unfold a', process. fold a.
  rewrite (_get_response_returns completion _ (mkWorld a (stdout w)) c cs H).
  cbn [fst snd self stdout].
  rewrite content_of_role_user, content_of_role_system.
  destruct (update_task_identity task prev (self w))
    as (_ & Hsi & _ & _ & _ & _ & _ & Hm & _).
  destruct (update_task_frame fmt task prev (self w)) as (_ & _ & _ & _ & Hh).
  fold a in Hsi, Hm, Hh. cbn. rewrite Hsi, Hm, Hh. repeat split.
Qed.

(** X3.  The history is append-only: after any call of [process] the
    history the agent had is a prefix of the history it has, and at most
    one entry has been added. *)
Theorem process_history_append_only (task : option string) (prev : string)
  (w : world) :
  exists added : list history_entry,
    _history (self (snd (process completion fmt task prev w)))
    = (_history (self w) ++ added)%list
    /\ length added <= 1.
Proof.
  unfold process.
  destruct (update_task_frame fmt task prev (self w)) as (_ & _ & _ & _ & Hh).
  unfold _get_response. cbn [self stdout].
  destruct (completion _ _ _) as [[|c cs]|msg]; cbn.
  - exists []. rewrite app_nil_r. split; [exact Hh | simpl; lia].
  - eexists [_]. rewrite Hh. split; [reflexivity | simpl; lia].
  - exists []. rewrite app_nil_r. split; [exact Hh | simpl; lia].
Qed.

(** X4.  After a successful call of [process] the property [responses]
    gives, without a warning, the responses of the earlier entries followed
    by the value the call returned. *)
Theorem responses_end_with_returned_value (task : option string)
  (prev : string) (w : world) (c : option string) (cs : response) :
  let a := update_task fmt task prev (self w) in
  completion (model a) (build_messages a (current_task_description a))
    (kwargs a) = Returned (c :: cs) ->
  fst (process completion fmt task prev w) = Ret c
  /\ responses (self (snd (process completion fmt task prev w)))
     = (Ret (Some (map entry_response (_history (self w)) ++ [c])%list), []).
Proof.
  intros a H. unfold process. fold a.
  rewrite (_get_response_returns completion _ (mkWorld a (stdout w)) c cs H).
  cbn [fst snd self].
  destruct (update_task_frame fmt task prev (self w)) as (_ & _ & _ & _ & Hh).
  fold a in Hh. split; [reflexivity|].
  set (e := mkEntry _ c _).
  assert (Hnew : _history (set_history (_history a ++ [e]) a)
                 = (_history (self w) ++ [e])%list)
    by (cbn; rewrite Hh; reflexivity).
  destruct (_history (self w) ++ [e])%list as [|e0 h0] eqn:E.
  - destruct (_history (self w)); discriminate E.
  - rewrite (responses_nonempty _ e0 h0 Hnew), <- E, map_app. reflexivity.
Qed.

End ProcessViews.

(** Witness of X2 and of X4: one successful call on a fresh agent. *)
Lemma process_records_what_it_sent_witness :
  fst (process completion_hello render None ""
         (mkWorld (agent_with_task "Say hello") []))
  = Ret (Some "Hello!")
  /\ _history (self (snd (process completion_hello render None ""
                            (mkWorld (agent_with_task "Say hello") []))))
     = [mkEntry (mkPrompts None (Some "Say hello")) (Some "Hello!") "gpt-4o"]
  /\ stdout (snd (process completion_hello render None ""
                    (mkWorld (agent_with_task "Say hello") [])))
     = [].
Proof.
  exact (process_records_what_it_sent completion_hello render None ""
           (mkWorld (agent_with_task "Say hello") []) (Some "Hello!") []
           eq_refl).
Defined.

Lemma responses_end_with_returned_value_witness :
  fst (process completion_hello render (Some "Say bye") "Hi"
         (mkWorld (agent_with_task "Say hello") []))
  = Ret (Some "Hello!")
  /\ responses (self (snd (process completion_hello render (Some "Say bye")
                            "Hi" (mkWorld (agent_with_task "Say hello") []))))
     = (Ret (Some [Some "Hello!"]), []).
Proof.
  exact (responses_end_with_returned_value completion_hello render
           (Some "Say bye") "Hi" (mkWorld (agent_with_task "Say hello") [])
           (Some "Hello!") [] eq_refl).
Defined.

(** ** What construction sets and what it leaves alone *)

Lemma same_setup_refl (a : Agent) : same_setup a a.
Proof. repeat split. Qed.

Lemma same_setup_trans (a b c : Agent) :
  same_setup a b -> same_setup b c -> same_setup a c.
Proof.
  unfold same_setup. intros H1 H2.
  destruct H1 as (A1 & A2 & A3 & A4 & A5 & A6 & A7 & A8 & A9 & A10 & A11 & A12).
  destruct H2 as (B1 & B2 & B3 & B4 & B5 & B6 & B7 & B8 & B9 & B10 & B11 & B12).
  repeat split; congruence.
Qed.

Lemma same_setup_set_persona (v : option string) (a : Agent) :
  same_setup (set_persona v a) a.
Proof. repeat split. Qed.

Lemma same_setup_set_persona_template (v : option string) (a : Agent) :
  same_setup (set_persona_template v a) a.
Proof. repeat split. Qed.

Lemma same_setup_set_system_instructions (v : option string) (a : Agent) :
  same_setup (set_system_instructions v a) a.
Proof. repeat split. Qed.

(** Matching a persona against the literal ["random"] is the string
    comparison. *)
Lemma persona_random_match {A : Type} (o : option string) (x y : A) :
  match o with
  | Some "random" => x
  | _ => y
  end
  = if match o with
       | Some p => String.eqb p "random"
       | None => false
       end
    then x else y.
Proof.
  destruct o as [p|]; [|reflexivity].
  destruct (String.eqb p "random") eqn:E.
  - apply String.eqb_eq in E. subst p. reflexivity.
  - repeat (destruct p as [|[[] [] [] [] [] [] [] []] p];
            try reflexivity; try discriminate E).
Qed.

Section ConstructionFacts.

Variable fmt : string -> list (string * option string) -> string.
Variable query : DataFrame -> string -> external DataFrame.
Variable csv : DataFrame.
Variable PERSONA_MAPPING : option mapping.
Variable DEFAULTS : presets.

Lemma _generate_persona_then_assign_same_setup (u : Q) (a a' : Agent) :
  obind (_generate_persona query u a)
    (fun pa => Ret (set_persona (fst pa) (snd pa))) = Ret a' ->
  same_setup a' a.
Proof.
  destruct (_generate_persona query u a) as [pa|e] eqn:E; cbn [obind];
    [|discriminate].
  intros [= <-]. rewrite (_generate_persona_sets_anes query u a pa E).
  repeat split.
Qed.

Lemma _set_system_instructions_same_setup (u : Q) (a a' : Agent) :
  _set_system_instructions fmt query u a = Ret a' -> same_setup a' a.
Proof.
  unfold _set_system_instructions.
  destruct (system_instructions a); [intros [= <-]; apply same_setup_refl|].
  destruct (_ && _); [intros [= <-]; repeat split|].
  rewrite persona_random_match.
  destruct (if match persona a with
               | Some p => String.eqb p "random"
               | None => false
               end
            then obind (_generate_persona query u a)
                   (fun pa => Ret (set_persona (fst pa) (snd pa)))
            else Ret a) as [a1|e] eqn:E1; cbn [obind]; [|discriminate].
  assert (H1 : same_setup a1 a).
  { destruct (match persona a with
              | Some p => String.eqb p "random"
              | None => false
              end).
    - apply (_generate_persona_then_assign_same_setup u a a1 E1).
    - injection E1 as <-. apply same_setup_refl. }
  destruct (if negb (PyStr.truthy (persona a1))
            then obind (_generate_persona query u a1)
                   (fun pa => Ret (set_persona (fst pa) (snd pa)))
            else Ret a1) as [a2|e] eqn:E2; cbn [obind]; [|discriminate].
  assert (H2 : same_setup a2 a).
  { destruct (negb (PyStr.truthy (persona a1))).
    - apply (same_setup_trans a2 a1 a);
        [apply (_generate_persona_then_assign_same_setup u a1 a2 E2)
        | exact H1].
    - injection E2 as <-. exact H1. }
  destruct (persona_template a2) as [key|]; [|discriminate].
  intros [= <-].
  apply (same_setup_trans _ a2 a); [|exact H2].
  repeat split.
Qed.

Lemma init_same_setup (args : init_args) (u : Q) (a : Agent) :
  __init__ fmt query csv PERSONA_MAPPING DEFAULTS args u = Ret a ->
  exists a1 : Agent,
    same_setup a1 (init_attributes csv PERSONA_MAPPING DEFAULTS args)
    /\ a = set_kwargs (match arg_kwargs args with
                       | Some k => k
                       | None => []
                       end) a1.
Proof.
  unfold __init__.
  destruct (_validate_templates _) as [[]|e]; cbn [obind]; [|discriminate].
  destruct (_validate_system_instructions _) as [[]|e]; cbn [obind];
    [|discriminate].
  destruct (_set_system_instructions fmt query u _) as [a1|e] eqn:E;
    cbn [obind]; [|discriminate].
  intros [= <-]. exists a1.
  split; [apply (_set_system_instructions_same_setup u _ a1 E) | reflexivity].
Qed.

(** X5.  Construction makes no model call and records nothing: an agent
    that [__init__] returns has an empty history, its three task fields are
    the task it was given, and the model, the combination instructions, the
    selectors, the data, the mapping and the completion options are the
    ones passed in (no options meaning the empty dictionary). *)
Theorem init_leaves_agent_fresh (args : init_args) (u : Q) (a : Agent) :
  __init__ fmt query csv PERSONA_MAPPING DEFAULTS args u = Ret a ->
  _history a = []
  /\ original_task_description a = arg_task args
  /\ current_task_description a = arg_task args
  /\ task_description a = arg_task args
  /\ model a = arg_model args
  /\ combination_instructions a = arg_combination_instructions args
  /\ ideology a = arg_ideology args
  /\ query_str a = arg_query_str args
  /\ data a = DATASET csv
  /\ persona_mapping a = PERSONA_MAPPING
  /\ defaults a = DEFAULTS
  /\ kwargs a = match arg_kwargs args with Some k => k | None => [] end.
Proof.
  intros H. destruct (init_same_setup args u a H) as [a1 [Hs ->]].
  destruct Hs as (A1 & A2 & A3 & A4 & A5 & A6 & A7 & A8 & A9 & A10 & A11 & A12).
  cbn. rewrite A1, A2, A3, A4, A5, A6, A7, A8, A9, A10, A11.
  repeat split.
Qed.

(** X6.  Before any task has been processed the read-only views are empty
    and warn: on an agent that [__init__] returns, [history] is [None] with
    the no-history warning, [responses] is [None] with that warning followed
    by its own, and [info] reports no history and warns once. *)
Theorem fresh_agent_views_warn (args : init_args) (u : Q) (a : Agent) :
  __init__ fmt query csv PERSONA_MAPPING DEFAULTS args u = Ret a ->
  history a = (None, [no_history_warning])
  /\ responses a = (Ret None, [no_history_warning; no_responses_warning])
  /\ info_history (fst (info a)) = None
  /\ snd (info a) = [no_history_warning].
Proof.
  intros H. destruct (init_same_setup args u a H) as [a1 [Hs ->]].
  destruct Hs as (_ & _ & A3 & _).
  unfold responses, info, history. cbn. rewrite A3. cbn.
  repeat split.
Qed.

Lemma _validate_system_instructions_no_dataset (a : Agent) :
  PyStr.truthy (ideology a) = false ->
  PyStr.truthy (query_str a) = false ->
  PyStr.truthy (persona a) && PyStr.truthy (system_instructions a) = false ->
  _validate_system_instructions a = Ret tt.
Proof.
  intros Hi Hq Hps. unfold _validate_system_instructions.
  rewrite Hi, Hq.
  destruct (PyStr.truthy (persona a)), (PyStr.truthy (system_instructions a));
    try discriminate Hps; reflexivity.
Qed.

(** X7.  Explicit system instructions win outright.  Whenever
    [system_instructions] is passed, even as the empty string, an agent
    that is constructed keeps them verbatim, keeps the persona argument and
    keeps the persona template unresolved: no persona is drawn and no
    template is rendered.  With non-empty instructions as the only selector
    and a valid template, construction succeeds with the attributes as
    given. *)
Theorem explicit_system_instructions_win (args : init_args) (u : Q)
  (s : string) :
  arg_system_instructions args = Some s ->
  (forall a : Agent,
      __init__ fmt query csv PERSONA_MAPPING DEFAULTS args u = Ret a ->
      system_instructions a = Some s
      /\ persona a = arg_persona args
      /\ persona_template a = arg_persona_template args)
  /\ (PyStr.truthy (arg_persona args) = false ->
      PyStr.truthy (arg_ideology args) = false ->
      PyStr.truthy (arg_query_str args) = false ->
      _validate_templates (init_attributes csv PERSONA_MAPPING DEFAULTS args)
      = Ret tt ->
      __init__ fmt query csv PERSONA_MAPPING DEFAULTS args u
      = Ret (set_kwargs (match arg_kwargs args with
                         | Some k => k
                         | None => []
                         end)
               (init_attributes csv PERSONA_MAPPING DEFAULTS args))).
Proof.
  intros Hs.
  assert (Hset : _set_system_instructions fmt query u
                   (init_attributes csv PERSONA_MAPPING DEFAULTS args)
                 = Ret (init_attributes csv PERSONA_MAPPING DEFAULTS args)).
  { unfold _set_system_instructions. read_attributes. rewrite Hs.
    reflexivity. }
  split.
  - intros a. unfold __init__.
    destruct (_validate_templates _) as [[]|e]; cbn [obind]; [|discriminate].
    destruct (_validate_system_instructions _) as [[]|e]; cbn [obind];
      [|discriminate].
    rewrite Hset. cbn [obind]. intros [= <-]. read_attributes.
    cbn. rewrite Hs. repeat split.
  - intros Hp Hi Hq Ht. unfold __init__. rewrite Ht. cbn [obind].
    rewrite _validate_system_instructions_no_dataset;
      read_attributes; try assumption.
    + cbn [obind]. rewrite Hset. reflexivity.
    + rewrite Hp. reflexivity.
Qed.

(** X8.  With no selector at all (no system instructions, no persona, no
    ideology, no query string) and a valid template, construction succeeds,
    the agent has no system instructions and keeps its template unresolved,
    and the request [_get_response] builds for it holds the user message
    only. *)
Theorem no_selector_means_user_message_only (args : init_args) (u : Q) :
  arg_system_instructions args = None ->
  PyStr.truthy (arg_persona args) = false ->
  PyStr.truthy (arg_ideology args) = false ->
  PyStr.truthy (arg_query_str args) = false ->
  _validate_templates (init_attributes csv PERSONA_MAPPING DEFAULTS args)
  = Ret tt ->
  exists a : Agent,
    __init__ fmt query csv PERSONA_MAPPING DEFAULTS args u = Ret a
    /\ system_instructions a = None
    /\ persona a = arg_persona args
    /\ persona_template a = arg_persona_template args
    /\ forall task : option string,
        build_messages a task = [mkMessage "user" task].
Proof.
  intros Hs Hp Hi Hq Ht. unfold __init__. rewrite Ht. cbn [obind].
  rewrite _validate_system_instructions_no_dataset;
    read_attributes; try assumption;
    [|rewrite Hp; reflexivity].
  cbn [obind]. unfold _set_system_instructions. read_attributes.
  rewrite Hs, Hp, Hi, Hq. cbn [PyStr.truthy negb andb obind].
  eexists. split; [reflexivity|]. repeat split.
Qed.

(** X9.  A literal persona is used as it stands and never touches the
    dataset: with [persona] the only selector (not the word "random") and a
    valid template, construction succeeds, the persona is the text given,
    the template is the named preset (or the caller's own text when it
    names none), stripped, and the system instructions are that template
    formatted with the persona and the task, stripped. *)
Theorem literal_persona_is_rendered (args : init_args) (u : Q)
  (p key : string) :
  arg_system_instructions args = None ->
  arg_persona args = Some p -> p <> "" -> p <> "random" ->
  PyStr.truthy (arg_ideology args) = false ->
  PyStr.truthy (arg_query_str args) = false ->
  arg_persona_template args = Some key ->
  _validate_templates (init_attributes csv PERSONA_MAPPING DEFAULTS args)
  = Ret tt ->
  let template := PyStr.strip (match assoc key DEFAULTS with
                               | Some t => t
                               | None => key
                               end) in
  exists a : Agent,
    __init__ fmt query csv PERSONA_MAPPING DEFAULTS args u = Ret a
    /\ persona a = Some p
    /\ persona_template a = Some template
    /\ system_instructions a
       = Some (PyStr.strip (fmt template [("persona", Some p);
                                          ("task", arg_task args)])).
Proof.
  intros Hs Hp Hne Hnr Hi Hq Hk Ht template.
  assert (Hpt : PyStr.truthy (Some p) = true)
    by (destruct p; [contradiction | reflexivity]).
  assert (Hrnd : String.eqb p "random" = false)
    by (apply String.eqb_neq; exact Hnr).
  unfold __init__. rewrite Ht. cbn [obind].
  rewrite _validate_system_instructions_no_dataset;
    read_attributes; try assumption;
    [|rewrite Hs; apply andb_false_r].
  cbn [obind]. unfold _set_system_instructions. read_attributes.
  rewrite persona_random_match.
  rewrite Hs, Hp, Hrnd, Hpt. cbn [PyStr.truthy negb andb obind].
  read_attributes. rewrite Hp, Hpt. cbn [negb obind]. read_attributes.
  rewrite Hk. cbn [obind].
  eexists. split; [reflexivity|].
  unfold template. cbn. rewrite Hp. repeat split.
Qed.

(** X10.  The template check lets [persona_template=None] through, and a
    literal persona then cannot be rendered: construction ends in the
    [AttributeError] of calling [strip] on [None]. *)
Theorem literal_persona_without_template_fails (args : init_args) (u : Q)
  (p : string) :
  arg_system_instructions args = None ->
  arg_persona args = Some p -> p <> "" -> p <> "random" ->
  PyStr.truthy (arg_ideology args) = false ->
  PyStr.truthy (arg_query_str args) = false ->
  arg_persona_template args = None ->
  __init__ fmt query csv PERSONA_MAPPING DEFAULTS args u
  = Raise (AttributeError "'NoneType' object has no attribute 'strip'").
Proof.
  intros Hs Hp Hne Hnr Hi Hq Hk.
  assert (Hpt : PyStr.truthy (Some p) = true)
    by (destruct p; [contradiction | reflexivity]).
  assert (Hrnd : String.eqb p "random" = false)
    by (apply String.eqb_neq; exact Hnr).
  unfold __init__, _validate_templates. read_attributes. rewrite Hk.
  cbn [obind].
  rewrite _validate_system_instructions_no_dataset;
    read_attributes; try assumption;
    [|rewrite Hs; apply andb_false_r].
  cbn [obind]. unfold _set_system_instructions. read_attributes.
  rewrite persona_random_match.
  rewrite Hs, Hp, Hrnd, Hpt. cbn [PyStr.truthy negb andb obind].
  read_attributes. rewrite Hp, Hpt. cbn [negb obind]. read_attributes.
  rewrite Hk. reflexivity.
Qed.

(** X11.  An ideology outside the five allowed values is refused at
    construction, before any row is looked at: with the ideology the only
    selector, a valid template and a mapping at hand, [__init__] raises the
    assertion "Ideology has to be one of".  The comparison is exact, so a
    capitalised bucket is refused as well. *)
Theorem unknown_ideology_is_refused (args : init_args) (u : Q) (b : string) :
  arg_ideology args = Some b -> b <> "" -> ~ In b allowed_vals ->
  PyStr.truthy (arg_system_instructions args) = false ->
  PyStr.truthy (arg_persona args) = false ->
  PyStr.truthy (arg_query_str args) = false ->
  PERSONA_MAPPING <> None ->
  _validate_templates (init_attributes csv PERSONA_MAPPING DEFAULTS args)
  = Ret tt ->
  __init__ fmt query csv PERSONA_MAPPING DEFAULTS args u
  = Raise (AssertionError IdeologyNotAllowed).
Proof.
  intros Hb Hne Hnin Hs Hp Hq Hm Ht.
  assert (Hbt : PyStr.truthy (Some b) = true)
    by (destruct b; [contradiction | reflexivity]).
  assert (Hex : existsb (String.eqb b) allowed_vals = false).
  { destruct (existsb (String.eqb b) allowed_vals) eqn:E; [|reflexivity].
    apply existsb_exists in E. destruct E as [x [Hin Heq]].
    apply String.eqb_eq in Heq. subst x. contradiction. }
  unfold __init__. rewrite Ht. cbn [obind].
  unfold _validate_system_instructions, assert. read_attributes.
  rewrite Hb, Hbt, Hs, Hp, Hq. cbn [PyStr.str].
  destruct PERSONA_MAPPING as [m|]; [|contradiction].
  rewrite Hex. reflexivity.
Qed.

(** X12.  A dataset selector without a persona mapping is refused first:
    when the mapping is missing and an ideology or a query string is given,
    [__init__] raises the need-data assertion, whatever else is passed,
    once the template check has passed. *)
Theorem dataset_selector_needs_mapping (args : init_args) (u : Q) :
  PERSONA_MAPPING = None ->
  PyStr.truthy (arg_ideology args) || PyStr.truthy (arg_query_str args)
  = true ->
  _validate_templates (init_attributes csv PERSONA_MAPPING DEFAULTS args)
  = Ret tt ->
  __init__ fmt query csv PERSONA_MAPPING DEFAULTS args u
  = Raise (AssertionError NeedDataAndMapping).
Proof.
  intros Hm Hsel Ht. unfold __init__. rewrite Ht. cbn [obind].
  unfold _validate_system_instructions, assert. read_attributes.
  rewrite Hsel, Hm. reflexivity.
Qed.

(** X13.  The template check comes first: a non-empty [persona_template]
    that neither contains the placeholder nor names a preset makes
    [__init__] raise the template assertion, whatever the other arguments
    are (also when explicit system instructions would leave the template
    unused). *)
Theorem bad_template_is_refused_first (args : init_args) (u : Q)
  (t : string) :
  arg_persona_template args = Some t -> t <> "" ->
  PyStr.contains "${persona}" t = false ->
  ~ In t (map fst DEFAULTS) ->
  __init__ fmt query csv PERSONA_MAPPING DEFAULTS args u
  = Raise (AssertionError BadPersonaTemplate).
Proof.
  intros Ht Hne Hc Hnin.
  assert (Hex : existsb (String.eqb t) (map fst DEFAULTS) = false).
  { destruct (existsb (String.eqb t) (map fst DEFAULTS)) eqn:E;
      [|reflexivity].
    apply existsb_exists in E. destruct E as [x [Hin Heq]].
    apply String.eqb_eq in Heq. subst x. contradiction. }
  unfold __init__, _validate_templates, assert. read_attributes.
  rewrite Ht, Hc, Hex.
  destruct t; [contradiction | reflexivity].
Qed.

End ConstructionFacts.

(** Witness of X5. *)
Lemma init_leaves_agent_fresh_witness :
  _history agent_michigan = []
  /\ original_task_description agent_michigan = Some "Say hello"
  /\ current_task_description agent_michigan = Some "Say hello"
  /\ task_description agent_michigan = Some "Say hello"
  /\ model agent_michigan = "gpt-4o"
  /\ combination_instructions agent_michigan = None
  /\ ideology agent_michigan = None
  /\ query_str agent_michigan = None
  /\ data agent_michigan = DATASET csv_small
  /\ persona_mapping agent_michigan = Some mapping_small
  /\ defaults agent_michigan = presets_small
  /\ kwargs agent_michigan = [].
Proof.
  exact (init_leaves_agent_fresh render query_by_state csv_small
           (Some mapping_small) presets_small
           (args_persona "a moderate voter from Michigan") 0%Q agent_michigan
           eq_refl).
Defined.

(** Witness of X6. *)
Lemma fresh_agent_views_warn_witness :
  history agent_michigan = (None, [no_history_warning])
  /\ responses agent_michigan
     = (Ret None, [no_history_warning; no_responses_warning])
  /\ info_history (fst (info agent_michigan)) = None
  /\ snd (info agent_michigan) = [no_history_warning].
Proof.
  exact (fresh_agent_views_warn render query_by_state csv_small
           (Some mapping_small) presets_small
           (args_persona "a moderate voter from Michigan") 0%Q agent_michigan
           eq_refl).
Defined.

(** Witness of X7: [Agent(system_instructions="You are a pirate.")]. *)
Lemma explicit_system_instructions_win_witness :
  (system_instructions
     (set_kwargs []
        (init_attributes csv_small (Some mapping_small) presets_small
           (args_system "You are a pirate.")))
   = Some "You are a pirate."
   /\ persona
        (set_kwargs []
           (init_attributes csv_small (Some mapping_small) presets_small
              (args_system "You are a pirate.")))
      = None
   /\ persona_template
        (set_kwargs []
           (init_attributes csv_small (Some mapping_small) presets_small
              (args_system "You are a pirate.")))
      = Some "default")
  /\ new_agent (args_system "You are a pirate.")
     = Ret (set_kwargs []
              (init_attributes csv_small (Some mapping_small) presets_small
                 (args_system "You are a pirate."))).
Proof.
  split.
  - exact (proj1 (explicit_system_instructions_win render query_by_state
                    csv_small (Some mapping_small) presets_small
                    (args_system "You are a pirate.") 0%Q
                    "You are a pirate." eq_refl)
             _ eq_refl).
  - exact (proj2 (explicit_system_instructions_win render query_by_state
                    csv_small (Some mapping_small) presets_small
                    (args_system "You are a pirate.") 0%Q
                    "You are a pirate." eq_refl)
             eq_refl eq_refl eq_refl eq_refl).
Defined.

(** Witness of X8: [Agent(task="Say hello")]. *)
Lemma no_selector_means_user_message_only_witness :
  exists a : Agent,
    new_agent args_task_only = Ret a
    /\ system_instructions a = None
    /\ persona a = None
    /\ persona_template a = Some "default"
    /\ forall task : option string,
        build_messages a task = [mkMessage "user" task].
Proof.
  exact (no_selector_means_user_message_only render query_by_state csv_small
           (Some mapping_small) presets_small args_task_only 0%Q
           eq_refl eq_refl eq_refl eq_refl eq_refl).
Defined.

(** Witness of X9: the example of the class documentation,
    [Agent(persona="a moderate voter from Michigan",
    persona_template="You are ${persona}.")]. *)
Lemma literal_persona_is_rendered_witness :
  exists a : Agent,
    new_agent (args_persona_and_template "a moderate voter from Michigan"
                 (Some "You are ${persona}."))
    = Ret a
    /\ persona a = Some "a moderate voter from Michigan"
    /\ persona_template a = Some "You are ${persona}."
    /\ system_instructions a
       = Some "You are a moderate voter from Michigan.".
Proof.
  exact (literal_persona_is_rendered render query_by_state csv_small
           (Some mapping_small) presets_small
           (args_persona_and_template "a moderate voter from Michigan"
              (Some "You are ${persona}."))
           0%Q "a moderate voter from Michigan" "You are ${persona}."
           eq_refl eq_refl ltac:(discriminate) ltac:(discriminate)
           eq_refl eq_refl eq_refl eq_refl).
Defined.

(** Witness of X10. *)
Lemma literal_persona_without_template_fails_witness :
  new_agent (args_persona_and_template "a moderate voter from Michigan" None)
  = Raise (AttributeError "'NoneType' object has no attribute 'strip'").
Proof.
  exact (literal_persona_without_template_fails render query_by_state
           csv_small (Some mapping_small) presets_small
           (args_persona_and_template "a moderate voter from Michigan" None)
           0%Q "a moderate voter from Michigan"
           eq_refl eq_refl ltac:(discriminate) ltac:(discriminate)
           eq_refl eq_refl eq_refl).
Defined.

(** Witness of X11: [Agent(ideology="Liberal")], capitalised. *)
Lemma unknown_ideology_is_refused_witness :
  new_agent (args_ideology "Liberal")
  = Raise (AssertionError IdeologyNotAllowed).
Proof.
  exact (unknown_ideology_is_refused render query_by_state csv_small
           (Some mapping_small) presets_small (args_ideology "Liberal") 0%Q
           "Liberal" eq_refl ltac:(discriminate)
           ltac:(simpl; intros H;
                 repeat (destruct H as [H | H]; [discriminate H|]);
                 exact H)
           eq_refl eq_refl eq_refl ltac:(discriminate) eq_refl).
Defined.

(** Witness of X12: [Agent(ideology="liberal")] when the mapping document
    is empty. *)
Lemma dataset_selector_needs_mapping_witness :
  __init__ render query_by_state csv_small None presets_small
    (args_ideology "liberal") 0%Q
  = Raise (AssertionError NeedDataAndMapping).
Proof.
  exact (dataset_selector_needs_mapping render query_by_state csv_small None
           presets_small (args_ideology "liberal") 0%Q
           eq_refl eq_refl eq_refl).
Defined.

(** Witness of X13. *)
Lemma bad_template_is_refused_first_witness :
  new_agent (args_persona_and_template "a voter" (Some "Be brief."))
  = Raise (AssertionError BadPersonaTemplate).
Proof.
  exact (bad_template_is_refused_first render query_by_state csv_small
           (Some mapping_small) presets_small
           (args_persona_and_template "a voter" (Some "Be brief.")) 0%Q
           "Be brief." eq_refl ltac:(discriminate) eq_refl
           ltac:(simpl; intros H;
                 repeat (destruct H as [H | H]; [discriminate H|]);
                 exact H)).
Defined.

(** ** The ideology filter *)

Lemma lower_char_idempotent (c : ascii) :
  PyStr.lower_char (PyStr.lower_char c) = PyStr.lower_char c.
Proof. destruct c as [[] [] [] [] [] [] [] []]; reflexivity. Qed.

Lemma lower_idempotent (s : string) : PyStr.lower (PyStr.lower s) = PyStr.lower s.
Proof.
  induction s as [|c s IH]; [reflexivity|].
  simpl. rewrite lower_char_idempotent, IH. reflexivity.
Qed.

Lemma _filter_data_by_ideology_is_filter (b : string) :
  exists keep : row -> bool,
    (forall d, _filter_data_by_ideology d b = filter keep d)
    /\ (forall r, keep r = true -> exists s, ideo5 r = Some s).
Proof.
  unfold _filter_data_by_ideology.
  repeat match goal with
    | |- context [if String.eqb ?x ?y then _ else _] =>
        destruct (String.eqb x y)
    end;
    try (eexists; split; [intros d; reflexivity|];
         intros r H; cbv beta in H;
         destruct (ideo5 r) as [s|]; [exists s; reflexivity | discriminate H]).
  exists (fun _ => false). split.
  - intros d. induction d as [|x d IH]; [reflexivity | exact IH].
  - intros r H. discriminate H.
Qed.

(** X14.  The ideology filter compares the bucket in lower case, so it does
    not depend on the case of its argument; and a word that is none of the
    five buckets, in any case, selects the empty frame. *)
Theorem filter_ignores_case_and_unknown_is_empty (d : DataFrame)
  (s : string) :
  _filter_data_by_ideology d (PyStr.lower s) = _filter_data_by_ideology d s
  /\ (~ In (PyStr.lower s) allowed_vals -> _filter_data_by_ideology d s = []).
Proof.
  split.
  - unfold _filter_data_by_ideology. rewrite lower_idempotent. reflexivity.
  - intros H. unfold _filter_data_by_ideology.
    repeat match goal with
      | |- context [if String.eqb ?x ?y then _ else _] =>
          destruct (String.eqb x y) eqn:?
      end; try reflexivity;
      exfalso; apply H;
      match goal with
      | E : String.eqb _ _ = true |- _ =>
          apply String.eqb_eq in E; rewrite E; simpl; tauto
      end.
Qed.

(** X15.  The ideology filter selects row by row and keeps the order of the
    data: the filter of two frames put end to end is the two filters put
    end to end.  A row it returns is a row of the data whose [ideo5] is not
    missing.  The rows of [very liberal] are among those of [liberal], and
    the rows of [very conservative] among those of [conservative]. *)
Theorem filter_is_rowwise_and_veries_are_subsets (d d' : DataFrame)
  (b : string) :
  _filter_data_by_ideology (d ++ d')%list b
  = (_filter_data_by_ideology d b ++ _filter_data_by_ideology d' b)%list
  /\ (forall r, In r (_filter_data_by_ideology d b) ->
                In r d /\ exists s, ideo5 r = Some s)
  /\ incl (_filter_data_by_ideology d "very liberal")
          (_filter_data_by_ideology d "liberal")
  /\ incl (_filter_data_by_ideology d "very conservative")
          (_filter_data_by_ideology d "conservative").
Proof.
  destruct (_filter_data_by_ideology_is_filter b) as [keep [Hk Hs]].
  split; [|split; [|split]].
  - rewrite !Hk. apply filter_app.
  - intros r. rewrite Hk, filter_In. intros [Hin Hr].
    split; [exact Hin | apply Hs; exact Hr].
  - intros r. unfold _filter_data_by_ideology. simpl.
    rewrite !filter_In, isin_spec, col_eq_spec. intros [Hin Hv].
    split; [exact Hin|]. eexists. split; [exact Hv | simpl; tauto].
  - intros r. unfold _filter_data_by_ideology. simpl.
    rewrite !filter_In, isin_spec, col_eq_spec. intros [Hin Hv].
    split; [exact Hin|]. eexists. split; [exact Hv | simpl; tauto].
Qed.

Lemma filtered_row_names_bucket (d : DataFrame) (b : string) (r : row) :
  In r (_filter_data_by_ideology d b) ->
  exists s,
    ideo5 r = Some s
    /\ PyStr.contains (PyStr.lower b) (PyStr.lower s) = true.
Proof.
  unfold _filter_data_by_ideology.
  repeat match goal with
    | |- context [if String.eqb ?x ?y then _ else _] =>
        destruct (String.eqb x y) eqn:?
    end;
    try match goal with
      | E : String.eqb _ _ = true |- _ => apply String.eqb_eq in E; rewrite E
      end;
    rewrite ?filter_In, ?isin_spec, ?col_eq_spec.
  - intros [_ [s [Hs Hin]]]. exists s. split; [exact Hs|].
    simpl in Hin. destruct Hin as [<- | [<- | []]]; reflexivity.
  - intros [_ [s [Hs Hin]]]. exists s. split; [exact Hs|].
    simpl in Hin. destruct Hin as [<- | [<- | []]]; reflexivity.
  - intros [_ Hs]. eexists. split; [exact Hs | reflexivity].
  - intros [_ Hs]. eexists. split; [exact Hs | reflexivity].
  - intros [_ Hs]. eexists. split; [exact Hs | reflexivity].
  - intros [].
Qed.

Lemma pick_total (d : DataFrame) :
  forall t : Q,
    (forall r, In r d -> (0 < weight_or_zero r)%Q) ->
    (0 <= t)%Q -> (t < total_weight d)%Q ->
    exists r, pick t d = Some r.
Proof.
  induction d as [|x d IH]; intros t Hpos H0 Ht.
  - exfalso. change (total_weight []) with 0%Q in Ht. lra.
  - cbn [pick]. destruct (Qltb t (weight_or_zero x)) eqn:E.
    + exists x. reflexivity.
    + apply Qltb_false in E.
      change (total_weight (x :: d))
        with (weight_or_zero x + total_weight d)%Q in Ht.
      apply IH.
      * intros r Hr. apply Hpos. right. exact Hr.
      * lra.
      * lra.
Qed.

Lemma total_weight_positive (x : row) (d : DataFrame) :
  (forall r, In r (x :: d) -> (0 < weight_or_zero r)%Q) ->
  (0 < total_weight (x :: d))%Q.
Proof.
  intros Hpos.
  change (total_weight (x :: d)) with (weight_or_zero x + total_weight d)%Q.
  assert (H0 : (0 <= total_weight d)%Q).
  { apply total_weight_nonneg. apply not_true_is_false. intros H.
    apply existsb_exists in H. destruct H as [r [Hin Hr]].
    apply Qltb_true in Hr.
    pose proof (Hpos r (or_intror Hin)). lra. }
  pose proof (Hpos x (or_introl eq_refl)). lra.
Qed.

Lemma sample_succeeds (u : Q) (d : DataFrame) :
  d <> [] ->
  (forall r, In r d -> (0 < weight_or_zero r)%Q) ->
  (0 <= u)%Q -> (u < 1)%Q ->
  exists r, sample u d = Ret r.
Proof.
  intros Hne Hpos H0 H1. unfold sample.
  destruct d as [|x d]; [contradiction|].
  pose proof (total_weight_positive x d Hpos) as HT.
  assert (Hneg : existsb (fun r => Qltb (weight_or_zero r) 0%Q) (x :: d)
                 = false).
  { apply not_true_is_false. intros H.
    apply existsb_exists in H. destruct H as [r [Hin Hr]].
    apply Qltb_true in Hr. pose proof (Hpos r Hin). lra. }
  rewrite Hneg.
  destruct (Qeq_bool (total_weight (x :: d)) 0) eqn:E.
  - apply Qeq_bool_iff in E. lra.
  - destruct (pick_total (x :: d) (u * total_weight (x :: d))%Q Hpos)
      as [r Hr].
    + apply Qmult_le_0_compat; lra.
    + pose proof (Qmult_lt_compat_r u 1 (total_weight (x :: d)) HT H1). lra.
    + rewrite Hr. exists r. reflexivity.
Qed.

Section DrawFacts.

Variable query : DataFrame -> string -> external DataFrame.

(** X16.  The row drawn for an ideology is a row of the agent's data whose
    [ideo5], in lower case, contains the ideology in lower case (so a
    respondent drawn for "conservative" is labelled conservative or very
    conservative), and whose weight is greater than zero. *)
Theorem drawn_row_matches_ideology (u : Q) (a : Agent) (r : row) :
  (0 <= u)%Q ->
  PyStr.truthy (ideology a) = true ->
  selected_row query u a = Ret (Some r) ->
  In r (data a)
  /\ (exists s,
         ideo5 r = Some s
         /\ PyStr.contains (PyStr.lower (PyStr.str (ideology a)))
              (PyStr.lower s) = true)
  /\ exists w, weight r = Some w /\ (0 < w)%Q.
Proof.
  intros Hu Ht. unfold selected_row. rewrite Ht.
  destruct (_filter_data_by_ideology (data a) (PyStr.str (ideology a)))
    as [|x d] eqn:E; [discriminate|].
  destruct (sample u (x :: d)) as [r'|e] eqn:Es; cbn [obind]; [|discriminate].
  intros [= ->].
  destruct (sample_selects_positive u (x :: d) r Hu Es) as [Hin Hw].
  rewrite <- E in Hin.
  destruct (_filter_data_by_ideology_is_filter (PyStr.str (ideology a)))
    as [keep [Hk _]].
  split; [|split].
  - rewrite Hk in Hin. apply filter_In in Hin. apply Hin.
  - apply (filtered_row_names_bucket (data a) _ r Hin).
  - exact Hw.
Qed.

(** X17.  The draw for an ideology succeeds whenever it can: if the filter
    keeps at least one row, every row of the data has a weight greater than
    zero and the uniform draw lies in [0, 1), a row is returned. *)
Theorem ideology_draw_succeeds (u : Q) (a : Agent) :
  (0 <= u)%Q -> (u < 1)%Q ->
  PyStr.truthy (ideology a) = true ->
  _filter_data_by_ideology (data a) (PyStr.str (ideology a)) <> [] ->
  (forall r, In r (data a) -> exists w, weight r = Some w /\ (0 < w)%Q) ->
  exists r, selected_row query u a = Ret (Some r).
Proof.
  intros H0 H1 Ht Hne Hpos. unfold selected_row. rewrite Ht.
  destruct (_filter_data_by_ideology_is_filter (PyStr.str (ideology a)))
    as [keep [Hk _]].
  destruct (sample_succeeds u
              (_filter_data_by_ideology (data a) (PyStr.str (ideology a))))
    as [r Hr]; try assumption.
  - intros r Hin. rewrite Hk in Hin. apply filter_In in Hin.
    destruct (Hpos r (proj1 Hin)) as [w [Hw Hlt]].
    unfold weight_or_zero. rewrite Hw. exact Hlt.
  - destruct (_filter_data_by_ideology (data a) (PyStr.str (ideology a)))
      as [|x d]; [contradiction|].
    rewrite Hr. exists r. reflexivity.
Qed.

End DrawFacts.

(** ** Rendering a row *)

Lemma row2persona_field_other (r : row) (var : string) (d : details) :
  String.eqb var "age" = false ->
  exists c, row2persona_field r var d = Ret c.
Proof.
  intros H. unfold row2persona_field. rewrite H.
  destruct (row_get r var) as [v|]; cbn [obind]; [|eexists; reflexivity].
  destruct v; try (eexists; reflexivity);
    destruct (match bad_vals d with Some (b :: bs) => _ | _ => false end);
    eexists; reflexivity.
Qed.

Lemma row2persona_field_age_nan (r : row) (d : details) :
  age r = None -> row2persona_field r "age" d = Raise nan_to_integer.
Proof.
  intros H. unfold row2persona_field, row_get. cbn. rewrite H. reflexivity.
Qed.

Lemma row2persona_clauses_age_nan (r : row) (m : mapping) :
  In "age" (map fst m) -> age r = None ->
  row2persona_clauses r m = Raise nan_to_integer.
Proof.
  intros Hin Hage. induction m as [|[var d] m IH]; [contradiction|].
  cbn [row2persona_clauses].
  destruct (String.eqb var "age") eqn:E.
  - apply String.eqb_eq in E. subst var.
    rewrite (row2persona_field_age_nan r d Hage). reflexivity.
  - destruct (row2persona_field_other r var d E) as [c Hc]. rewrite Hc.
    cbn [obind]. rewrite IH; [reflexivity|].
    destruct Hin as [Heq | Hin]; [|exact Hin].
    simpl in Heq. subst var. rewrite String.eqb_refl in E. discriminate E.
Qed.

Lemma row2persona_field_age_known (r : row) (d : details) (z : Z) :
  age r = Some z -> exists c, row2persona_field r "age" d = Ret c.
Proof.
  intros H. unfold row2persona_field, row_get. cbn. rewrite H. cbn.
  destruct (match bad_vals d with Some (b :: bs) => _ | _ => false end);
    eexists; reflexivity.
Qed.

Lemma row2persona_clauses_age_known (r : row) (m : mapping) (z : Z) :
  age r = Some z -> exists cs, row2persona_clauses r m = Ret cs.
Proof.
  intros Hage. induction m as [|[var d] m [cs IH]]; [exists []; reflexivity|].
  cbn [row2persona_clauses].
  assert (Hf : exists c, row2persona_field r var d = Ret c).
  { destruct (String.eqb var "age") eqn:E.
    - apply String.eqb_eq in E. subst var.
      apply (row2persona_field_age_known r d z Hage).
    - apply (row2persona_field_other r var d E). }
  destruct Hf as [c Hc]. rewrite Hc, IH. cbn [obind].
  eexists. reflexivity.
Qed.

Lemma loaded_row_age (csv : DataFrame) (r : row) :
  In r (_load_global_anes_data csv) ->
  age r = option_map (fun y => (2024 - y)%Z) (birthyr r).
Proof.
  unfold _load_global_anes_data, set_age. intros Hr.
  apply in_map_iff in Hr. destruct Hr as [x [<- _]]. reflexivity.
Qed.

(** X18.  A row whose age is missing cannot be rendered by a mapping that
    has an [age] entry: [_row2persona] raises the [ValueError] of converting
    NaN to an integer.  After loading, the rows that raise it are exactly
    those with no birth year: a retained row with birth year [y] has age
    [2024 - y] and is rendered without error. *)
Theorem missing_age_cannot_be_rendered (m : mapping) :
  In "age" (map fst m) ->
  (forall r : row,
      age r = None -> _row2persona r (Some m) = Raise nan_to_integer)
  /\ (forall (csv : DataFrame) (r : row),
         In r (_load_global_anes_data csv) ->
         (_row2persona r (Some m) = Raise nan_to_integer
          <-> birthyr r = None))
  /\ (forall (csv : DataFrame) (r : row) (y : Z),
         In r (_load_global_anes_data csv) -> birthyr r = Some y ->
         age r = Some (2024 - y)%Z
         /\ exists text, _row2persona r (Some m) = Ret text).
Proof.
  intros Hin.
  assert (H : forall r : row,
             age r = None -> _row2persona r (Some m) = Raise nan_to_integer).
  { intros r Hage. unfold _row2persona.
    rewrite (row2persona_clauses_age_nan r m Hin Hage). reflexivity. }
  assert (Hk : forall (csv : DataFrame) (r : row) (y : Z),
             In r (_load_global_anes_data csv) -> birthyr r = Some y ->
             age r = Some (2024 - y)%Z
             /\ exists text, _row2persona r (Some m) = Ret text).
  { intros csv r y Hr Hb.
    pose proof (loaded_row_age csv r Hr) as Hage. rewrite Hb in Hage.
    cbn in Hage. split; [exact Hage|].
    destruct (row2persona_clauses_age_known r m _ Hage) as [cs Hcs].
    unfold _row2persona. rewrite Hcs. eexists. reflexivity. }
  split; [exact H|]. split; [|exact Hk].
  intros csv r Hr. split.
  - intros Hraise. destruct (birthyr r) as [y|] eqn:Hb; [|reflexivity].
    destruct (Hk csv r y Hr Hb) as [_ [text Ht]].
    rewrite Ht in Hraise. discriminate Hraise.
  - intros Hb. apply H.
    rewrite (loaded_row_age csv r Hr), Hb. reflexivity.
Qed.


(** ** Stripped text *)

Lemma lstrip_head (s : string) :
  PyStr.lstrip s = EmptyString
  \/ exists c r, PyStr.lstrip s = String c r /\ PyStr.isspace c = false.
Proof.
  induction s as [|c s IH]; [left; reflexivity|].
  simpl. destruct (PyStr.isspace c) eqn:E; [exact IH|].
  right. exists c, s. split; [reflexivity | exact E].
Qed.

Lemma rstrip_keeps_head (c : ascii) (r : string) :
  PyStr.isspace c = false ->
  exists r', PyStr.rstrip (String c r) = String c r'.
Proof.
  intros H. simpl. destruct (PyStr.rstrip r) as [|c' r'].
  - rewrite H. exists EmptyString. reflexivity.
  - exists (String c' r'). reflexivity.
Qed.

Lemma rstrip_idempotent (s : string) :
  PyStr.rstrip (PyStr.rstrip s) = PyStr.rstrip s.
Proof.
  induction s as [|c s IH]; [reflexivity|].
  simpl. destruct (PyStr.rstrip s) as [|c' r'] eqn:E.
  - destruct (PyStr.isspace c) eqn:Ec; [reflexivity|].
    simpl. rewrite Ec. reflexivity.
  - change (PyStr.rstrip (String c (String c' r'))) with
      (match PyStr.rstrip (String c' r') with
       | EmptyString =>
           if PyStr.isspace c then EmptyString else String c EmptyString
       | r'' => String c r''
       end).
    rewrite IH. reflexivity.
Qed.

Lemma strip_idempotent (s : string) :
  PyStr.strip (PyStr.strip s) = PyStr.strip s.
Proof.
  unfold PyStr.strip.
  destruct (lstrip_head s) as [-> | [c [r [-> Hc]]]]; [reflexivity|].
  destruct (rstrip_keeps_head c r Hc) as [r' Hr].
  rewrite Hr. simpl PyStr.lstrip. rewrite Hc. rewrite <- Hr.
  apply rstrip_idempotent.
Qed.

Section StrippedTask.

Variable completion : string -> list message -> kwargs_t -> external response.
Variable fmt : string -> list (string * option string) -> string.

(** X20.  After a call of [process] with previous responses the current
    task description is a stripped text: stripping it again changes
    nothing, so it has no whitespace at either end, whatever the task and
    the rendered block were. *)
Theorem current_task_is_stripped (task : option string) (prev : string)
  (w : world) :
  prev <> "" ->
  exists s : string,
    current_task_description
      (self (snd (process completion fmt task prev w))) = Some s
    /\ PyStr.strip s = s.
Proof.
  intros Hp. unfold process.
  match goal with
  | |- context [_get_response completion ?t ?w'] =>
      destruct (_get_response_keeps_tasks completion t w') as [Hc _]
  end.
  rewrite Hc. cbn [self]. unfold update_task.
  destruct prev as [|c p]; [contradiction|].
  cbn [PyStr.nonempty]. eexists. split; [reflexivity|].
  apply strip_idempotent.
Qed.

End StrippedTask.

(** ** Text inside text *)

Lemma append_assoc (a b c : string) : (a ++ b) ++ c = a ++ (b ++ c).
Proof. induction a as [|x a IH]; simpl; [reflexivity | rewrite IH; reflexivity]. Qed.

Lemma prefix_append (a b : string) : prefix a (a ++ b) = true.
Proof.
  induction a as [|x a IH]; [destruct b; reflexivity|].
  simpl. destruct (ascii_dec x x) as [_|n]; [exact IH | contradiction].
Qed.

Lemma prefix_split (a s : string) :
  prefix a s = true -> exists y, s = a ++ y.
Proof.
  revert s. induction a as [|x a IH]; intros s H.
  - exists s. reflexivity.
  - destruct s as [|c s]; [discriminate H|].
    simpl in H. destruct (ascii_dec x c) as [->|]; [|discriminate H].
    destruct (IH s H) as [y ->]. exists y. reflexivity.
Qed.

Lemma contains_spec (sub s : string) :
  PyStr.contains sub s = true <-> exists x y, s = x ++ sub ++ y.
Proof.
  split.
  - induction s as [|c s IH]; simpl; intros H.
    + apply orb_true_iff in H. destruct H as [H | H]; [|discriminate H].
      destruct (prefix_split sub EmptyString H) as [y Hy].
      exists EmptyString, y. exact Hy.
    + apply orb_true_iff in H. destruct H as [H | H].
      * destruct (prefix_split sub (String c s) H) as [y Hy].
        exists EmptyString, y. exact Hy.
      * destruct (IH H) as [x [y ->]]. exists (String c x), y. reflexivity.
  - intros [x [y ->]]. induction x as [|c x IH].
    + simpl append.
      pose proof (prefix_append sub y) as Hp.
      destruct (sub ++ y) as [|c s]; cbn [PyStr.contains]; rewrite Hp;
        reflexivity.
    + change (String c x ++ sub ++ y) with (String c (x ++ sub ++ y)).
      simpl. rewrite IH. apply orb_true_r.
Qed.

Lemma contains_trans (a b c : string) :
  PyStr.contains a b = true -> PyStr.contains b c = true ->
  PyStr.contains a c = true.
Proof.
  rewrite !contains_spec. intros [x [y ->]] [x' [y' ->]].
  exists (x' ++ x), (y ++ y'). rewrite !append_assoc. reflexivity.
Qed.

Lemma contains_join (sep c : string) (cs : list string) :
  In c cs -> PyStr.contains c (PyStr.join sep cs) = true.
Proof.
  intros Hin. apply contains_spec.
  induction cs as [|c0 cs IH]; [contradiction|].
  destruct Hin as [-> | Hin].
  - destruct cs as [|c1 cs].
    + exists EmptyString, EmptyString. simpl.
      clear. induction c as [|x c IH]; simpl; [reflexivity | rewrite <- IH; reflexivity].
    + exists EmptyString, (sep ++ PyStr.join sep (c1 :: cs)). reflexivity.
  - destruct (IH Hin) as [x [y Hxy]].
    destruct cs as [|c1 cs]; [contradiction|].
    exists (c0 ++ sep ++ x), y.
    change (PyStr.join sep (c0 :: c1 :: cs))
      with (c0 ++ sep ++ PyStr.join sep (c1 :: cs)).
    rewrite Hxy, !append_assoc. reflexivity.
Qed.

(** ** The persona of an ideology *)

Lemma pick_In (d : DataFrame) :
  forall (t : Q) (r : row), pick t d = Some r -> In r d.
Proof.
  induction d as [|x d IH]; simpl; intros t r H; [discriminate|].
  destruct (Qltb t (weight_or_zero x)).
  - injection H as <-. left. reflexivity.
  - right. apply (IH _ r H).
Qed.

Lemma sample_In (u : Q) (d : DataFrame) (r : row) :
  sample u d = Ret r -> In r d.
Proof.
  unfold sample. destruct d as [|x d]; [discriminate|].
  destruct (existsb _ (x :: d)); [discriminate|].
  destruct (Qeq_bool _ _); [discriminate|].
  destruct (pick _ (x :: d)) as [r'|] eqn:Hp; [|discriminate].
  intros [= ->]. apply (pick_In _ _ r Hp).
Qed.

Lemma clause_in_clauses (r : row) (var : string) (d : details)
  (clause : string) (m : mapping) :
  In (var, d) m ->
  row2persona_field r var d = Ret (Some clause) ->
  forall cs, row2persona_clauses r m = Ret cs -> In clause cs.
Proof.
  intros Hin Hf. induction m as [|[v0 d0] m IH]; [contradiction|].
  intros cs. cbn [row2persona_clauses].
  destruct (row2persona_field r v0 d0) as [c|e] eqn:E0; cbn [obind];
    [|discriminate].
  destruct (row2persona_clauses r m) as [cs'|e]; cbn [obind]; [|discriminate].
  intros [= <-].
  destruct Hin as [Heq | Hin].
  - injection Heq as -> ->. rewrite Hf in E0. injection E0 as <-.
    left. reflexivity.
  - specialize (IH Hin cs' eq_refl). destruct c; [right|]; exact IH.
Qed.

Lemma ideo5_field_clause (r : row) (d : details) (s : string) :
  ideo5 r = Some s ->
  (forall bad, bad_vals d = Some bad -> ~ In s bad) ->
  recode_vals d = None ->
  row2persona_field r "ideo5" d
  = Ret (Some (name d ++ " " ++ PyStr.lower s ++ ".")).
Proof.
  intros Hs Hb Hr. unfold row2persona_field, row_get. cbn.
  rewrite Hs, Hr. cbn.
  destruct (bad_vals d) as [[|b0 bs]|]; try reflexivity.
  assert (Hex : existsb (String.eqb s) (b0 :: bs) = false).
  { apply not_true_is_false. intros H. apply existsb_exists in H.
    destruct H as [x [Hin Heq]]. apply String.eqb_eq in Heq. subst x.
    apply (Hb (b0 :: bs) eq_refl Hin). }
  cbn [existsb] in Hex. rewrite Hex. reflexivity.
Qed.

Lemma allowed_vals_are_lower (b : string) :
  In b allowed_vals -> PyStr.lower b = b.
Proof.
  intros H. simpl in H.
  repeat destruct H as [<- | H]; try reflexivity. contradiction.
Qed.

Section PersonaText.

Variable fmt : string -> list (string * option string) -> string.
Variable query : DataFrame -> string -> external DataFrame.
Variable csv : DataFrame.
Variable PERSONA_MAPPING : option mapping.
Variable DEFAULTS : presets.

Lemma selected_row_in_filter (u : Q) (a : Agent) (r : row) :
  PyStr.truthy (ideology a) = true ->
  selected_row query u a = Ret (Some r) ->
  In r (_filter_data_by_ideology (data a) (PyStr.str (ideology a))).
Proof.
  intros Ht. unfold selected_row. rewrite Ht.
  destruct (_filter_data_by_ideology (data a) (PyStr.str (ideology a)))
    as [|x d]; [discriminate|].
  destruct (sample u (x :: d)) as [r'|e] eqn:Es; cbn [obind]; [|discriminate].
  intros [= ->]. apply (sample_In u _ r Es).
Qed.

Lemma selected_row_by_ideology_is_some (u : Q) (a : Agent)
  (sel : option row) :
  PyStr.truthy (ideology a) = true ->
  selected_row query u a = Ret sel -> exists r, sel = Some r.
Proof.
  intros Ht. unfold selected_row. rewrite Ht.
  destruct (_filter_data_by_ideology (data a) (PyStr.str (ideology a)))
    as [|x d]; [discriminate|].
  destruct (sample u (x :: d)) as [r'|e]; cbn [obind]; [|discriminate].
  intros [= <-]. exists r'. reflexivity.
Qed.

(** The path of [__init__] when the ideology is the selector. *)
Lemma init_by_ideology (args : init_args) (u : Q) (a : Agent) (b : string) :
  arg_system_instructions args = None ->
  PyStr.truthy (arg_persona args) = false ->
  arg_ideology args = Some b -> b <> "" ->
  __init__ fmt query csv PERSONA_MAPPING DEFAULTS args u = Ret a ->
  In b allowed_vals
  /\ exists (r : row) (text : string),
      selected_row query u (init_attributes csv PERSONA_MAPPING DEFAULTS args)
      = Ret (Some r)
      /\ _row2persona r PERSONA_MAPPING = Ret text
      /\ persona a = Some text.
Proof.
  intros Hs Hp Hb Hne.
  assert (Hbt : PyStr.truthy (Some b) = true)
    by (destruct b; [contradiction | reflexivity]).
  set (a0 := init_attributes csv PERSONA_MAPPING DEFAULTS args).
  assert (Hi0 : PyStr.truthy (ideology a0) = true)
    by (unfold a0; read_attributes; rewrite Hb; exact Hbt).
  unfold __init__. fold a0.
  destruct (_validate_templates a0) as [[]|e]; cbn [obind]; [|discriminate].
  destruct (_validate_system_instructions a0) as [[]|e] eqn:Ev; cbn [obind];
    [|discriminate].
  assert (Hal : In b allowed_vals).
  { revert Ev. unfold _validate_system_instructions, assert, a0.
    read_attributes. rewrite Hb, Hbt. cbn [PyStr.str orb].
    destruct (match PERSONA_MAPPING with Some _ => true | None => false end);
      cbn [obind]; [|discriminate].
    destruct (Nat.ltb _ _); cbn [obind]; [discriminate|].
    destruct (existsb (String.eqb b) allowed_vals) eqn:Ex; [|discriminate].
    intros _. apply existsb_exists in Ex. destruct Ex as [x [Hin Heq]].
    apply String.eqb_eq in Heq. subst x. exact Hin. }
  intros Hinit. split; [exact Hal|]. revert Hinit.
  unfold _set_system_instructions.
  change (system_instructions a0) with (arg_system_instructions args).
  rewrite Hs. rewrite Hi0.
  replace (negb (PyStr.truthy None) && negb (PyStr.truthy (persona a0))
           && negb true && negb (PyStr.truthy (query_str a0))) with false
    by (destruct (PyStr.truthy (persona a0)); reflexivity).
  rewrite persona_random_match.
  assert (Hp0 : PyStr.truthy (persona a0) = false) by exact Hp.
  replace (match persona a0 with
           | Some p => String.eqb p "random"
           | None => false
           end) with false
    by (destruct (persona a0) as [[|c p]|]; try discriminate Hp0; reflexivity).
  cbn [obind]. rewrite Hp0. cbn [negb].
  unfold _generate_persona. rewrite persona_random_match.
  change (persona (set_persona_template (assoc "anes" (defaults a0)) a0))
    with (persona a0).
  replace (match persona a0 with
           | Some p => String.eqb p "random"
           | None => false
           end) with false
    by (destruct (persona a0) as [[|c p]|]; try discriminate Hp0; reflexivity).
  rewrite selected_row_ignores_template.
  destruct (selected_row query u a0) as [sel|e] eqn:Esel; cbn [obind];
    [|discriminate].
  destruct (selected_row_by_ideology_is_some u a0 sel Hi0 Esel) as [r ->].
  change (persona_mapping
            (set_persona_template (assoc "anes" (defaults a0)) a0))
    with PERSONA_MAPPING.
  destruct (_row2persona r PERSONA_MAPPING) as [text|e] eqn:Erow;
    cbn [obind]; [|discriminate].
  cbn [fst snd].
  destruct (persona_template _) as [key|]; cbn [obind]; [|discriminate].
  intros [= <-]. exists r, text. repeat split; assumption.
Qed.

(** X21.  An agent constructed by ideology describes a respondent of that
    ideology: when the mapping has an [ideo5] entry that does not recode
    and whose bad values do not name the ideology, the persona of the agent
    contains the ideology it was asked for, as in
    [Agent(ideology="very conservative")]. *)
Theorem ideology_persona_names_ideology (args : init_args) (u : Q)
  (a : Agent) (b : string) (m : mapping) (d : details) :
  arg_system_instructions args = None ->
  PyStr.truthy (arg_persona args) = false ->
  arg_ideology args = Some b -> b <> "" ->
  PERSONA_MAPPING = Some m ->
  In ("ideo5", d) m ->
  (forall bad v, bad_vals d = Some bad -> In v bad ->
                 PyStr.contains b (PyStr.lower v) = false) ->
  recode_vals d = None ->
  __init__ fmt query csv PERSONA_MAPPING DEFAULTS args u = Ret a ->
  exists text : string,
    persona a = Some text /\ PyStr.contains b text = true.
Proof.
  intros Hs Hp Hb Hne Hm Hin Hbad Hrec Hinit.
  destruct (init_by_ideology args u a b Hs Hp Hb Hne Hinit)
    as [Hal [r [text [Hsel [Hrow Hpers]]]]].
  exists text. split; [exact Hpers|].
  assert (Hbt : PyStr.truthy (Some b) = true)
    by (destruct b; [contradiction | reflexivity]).
  assert (Hfil : In r (_filter_data_by_ideology (DATASET csv) b)).
  { pose proof (selected_row_in_filter u
                  (init_attributes csv PERSONA_MAPPING DEFAULTS args) r) as H.
    read_attributes. rewrite Hb in H. apply H; [exact Hbt | exact Hsel]. }
  destruct (filtered_row_names_bucket _ _ _ Hfil) as [s [Hs5 Hcont]].
  rewrite (allowed_vals_are_lower b Hal) in Hcont.
  rewrite Hm in Hrow. unfold _row2persona in Hrow.
  destruct (row2persona_clauses r m) as [cs|e] eqn:Ecs; cbn [obind] in Hrow;
    [|discriminate].
  injection Hrow as <-.
  assert (Hgood : forall bad, bad_vals d = Some bad -> ~ In s bad).
  { intros bad Hbv Hsin. rewrite (Hbad bad s Hbv Hsin) in Hcont.
    discriminate Hcont. }
  pose proof (clause_in_clauses r "ideo5" d _ m Hin
                (ideo5_field_clause r d s Hs5 Hgood Hrec) cs Ecs) as Hcl.
  apply (contains_trans b (PyStr.lower s)); [exact Hcont|].
  apply (contains_trans _ (name d ++ " " ++ PyStr.lower s ++ "."));
    [|apply contains_join; exact Hcl].
  apply contains_spec. exists (name d ++ " "), ".".
  rewrite append_assoc. reflexivity.
Qed.

End PersonaText.

(** ** The random persona *)

Section RandomPersona.

Variable fmt : string -> list (string * option string) -> string.
Variable query : DataFrame -> string -> external DataFrame.
Variable csv : DataFrame.
Variable PERSONA_MAPPING : option mapping.
Variable DEFAULTS : presets.

Lemma single_truthy_persona (a : Agent) :
  PyStr.truthy (persona a) = true ->
  _validate_system_instructions a = Ret tt ->
  PyStr.truthy (ideology a) = false /\ PyStr.truthy (query_str a) = false.
Proof.
  intros Hp. unfold _validate_system_instructions, assert. rewrite Hp.
  destruct (PyStr.truthy (ideology a)), (PyStr.truthy (query_str a)),
    (PyStr.truthy (system_instructions a)),
    (match persona_mapping a with Some _ => true | None => false end);
    cbn; try discriminate; intros _; split; reflexivity.
Qed.

(** X22.  [persona="random"] draws from the whole dataset, not from a
    filtered part: an agent so constructed has as persona the text of a row
    sampled from [DATASET].  When that text is empty (every field of the
    row was skipped, or the mapping is empty) the persona is [None]
    instead. *)
Theorem random_persona_is_drawn_from_whole_dataset (args : init_args)
  (u : Q) (a : Agent) :
  arg_system_instructions args = None ->
  arg_persona args = Some "random" ->
  __init__ fmt query csv PERSONA_MAPPING DEFAULTS args u = Ret a ->
  exists (r : row) (text : string),
    sample u (DATASET csv) = Ret r
    /\ In r (DATASET csv)
    /\ _row2persona r PERSONA_MAPPING = Ret text
    /\ (text <> "" /\ persona a = Some text
        \/ text = "" /\ persona a = None).
Proof.
  intros Hs Hp.
  set (a0 := init_attributes csv PERSONA_MAPPING DEFAULTS args).
  assert (Hp0 : persona a0 = Some "random") by exact Hp.
  unfold __init__. fold a0.
  destruct (_validate_templates a0) as [[]|e]; cbn [obind]; [|discriminate].
  destruct (_validate_system_instructions a0) as [[]|e] eqn:Ev; cbn [obind];
    [|discriminate].
  destruct (single_truthy_persona a0) as [Hi Hq];
    [rewrite Hp0; reflexivity | exact Ev |].
  unfold _set_system_instructions.
  change (system_instructions a0) with (arg_system_instructions args).
  rewrite Hs, Hp0. cbn [PyStr.truthy PyStr.nonempty negb andb].
  (* the first call of [_generate_persona]: the random draw *)
  unfold _generate_persona at 1.
  change (persona (set_persona_template (assoc "anes" (defaults a0)) a0))
    with (persona a0).
  rewrite Hp0. unfold _get_random_persona.
  change (data (set_persona_template (assoc "anes" (defaults a0)) a0))
    with (DATASET csv).
  change (persona_mapping
            (set_persona_template (assoc "anes" (defaults a0)) a0))
    with PERSONA_MAPPING.
  destruct (sample u (DATASET csv)) as [r|e] eqn:Es; cbn [obind];
    [|discriminate].
  destruct (_row2persona r PERSONA_MAPPING) as [text|e] eqn:Er; cbn [obind];
    [|discriminate].
  cbn [fst snd].
  set (a1 := set_persona (Some text)
               (set_persona_template (assoc "anes" (defaults a0)) a0)).
  change (persona a1) with (Some text).
  intros Hinit. exists r, text.
  split; [reflexivity|]. split; [apply (sample_In u _ r Es)|].
  split; [exact Er|]. revert Hinit.
  destruct text as [|c t].
  - (* an empty text: [_generate_persona] runs again and returns [None] *)
    cbn [PyStr.truthy PyStr.nonempty negb].
    unfold _generate_persona.
    change (persona (set_persona_template (assoc "anes" (defaults a1)) a1))
      with (Some EmptyString).
    rewrite selected_row_ignores_template.
    unfold selected_row.
    change (ideology a1) with (ideology a0).
    change (query_str a1) with (query_str a0).
    rewrite Hi, Hq. cbn [obind fst snd].
    destruct (persona_template _) as [key|]; cbn [obind]; [|discriminate].
    intros [= <-]. right. split; reflexivity.
  - cbn [PyStr.truthy PyStr.nonempty negb obind].
    destruct (persona_template a1) as [key|]; cbn [obind]; [|discriminate].
    intros [= <-]. left. split; [discriminate | reflexivity].
Qed.

End RandomPersona.

(** ** Witnesses on the fixtures *)

(** Witness of X14: "LIBERAL" selects what "liberal" selects, and
    "centrist" selects nothing. *)
Lemma filter_ignores_case_and_unknown_is_empty_witness :
  _filter_data_by_ideology (DATASET csv_small) (PyStr.lower "LIBERAL")
  = _filter_data_by_ideology (DATASET csv_small) "LIBERAL"
  /\ _filter_data_by_ideology (DATASET csv_small) "centrist" = [].
Proof.
  split.
  - exact (proj1 (filter_ignores_case_and_unknown_is_empty
                    (DATASET csv_small) "LIBERAL")).
  - exact (proj2 (filter_ignores_case_and_unknown_is_empty
                    (DATASET csv_small) "centrist")
             ltac:(simpl; intros H;
                   repeat (destruct H as [H | H]; [discriminate H|]);
                   exact H)).
Defined.

(** Witness of X15. *)
Lemma filter_is_rowwise_and_veries_are_subsets_witness :
  In row_liberal_loaded (DATASET csv_small)
  /\ exists s, ideo5 row_liberal_loaded = Some s.
Proof.
  exact (proj1 (proj2 (filter_is_rowwise_and_veries_are_subsets
                         (DATASET csv_small) [] "liberal"))
           row_liberal_loaded ltac:(left; reflexivity)).
Defined.

(** Witness of X16. *)
Lemma drawn_row_matches_ideology_witness :
  In row_liberal_loaded (DATASET csv_small)
  /\ (exists s,
         ideo5 row_liberal_loaded = Some s
         /\ PyStr.contains "liberal" (PyStr.lower s) = true)
  /\ exists w, weight row_liberal_loaded = Some w /\ (0 < w)%Q.
Proof.
  exact (drawn_row_matches_ideology query_by_state 0%Q
           (init_attributes csv_small (Some mapping_small) presets_small
              (args_ideology "liberal"))
           row_liberal_loaded ltac:(discriminate) eq_refl eq_refl).
Defined.

(** Witness of X17. *)
Lemma ideology_draw_succeeds_witness :
  exists r,
    selected_row query_by_state (1 # 2)%Q
      (init_attributes csv_small (Some mapping_small) presets_small
         (args_ideology "conservative"))
    = Ret (Some r).
Proof.
  exact (ideology_draw_succeeds query_by_state (1 # 2)%Q
           (init_attributes csv_small (Some mapping_small) presets_small
              (args_ideology "conservative"))
           ltac:(discriminate) ltac:(reflexivity) eq_refl
           ltac:(discriminate)
           ltac:(simpl; intros r H;
                 repeat (destruct H as [<- | H];
                         [eexists; split; reflexivity|]);
                 contradiction)).
Defined.

(** Witness of X18: a respondent with no birth year, and one born in
    1967. *)
Lemma missing_age_cannot_be_rendered_witness :
  _row2persona row_no_birth_year (Some mapping_small) = Raise nan_to_integer
  /\ (_row2persona row_no_birth_year (Some mapping_small)
      = Raise nan_to_integer
      <-> birthyr row_no_birth_year = None)
  /\ (age row_liberal_loaded = Some (2024 - 1967)%Z
      /\ exists text,
          _row2persona row_liberal_loaded (Some mapping_small) = Ret text).
Proof.
  split; [|split].
  - exact (proj1 (missing_age_cannot_be_rendered mapping_small
                    ltac:(left; reflexivity))
             row_no_birth_year eq_refl).
  - exact (proj1 (proj2 (missing_age_cannot_be_rendered mapping_small
                           ltac:(left; reflexivity)))
             [row_no_birth_year] row_no_birth_year
             ltac:(left; reflexivity)).
  - exact (proj2 (proj2 (missing_age_cannot_be_rendered mapping_small
                           ltac:(left; reflexivity)))
             csv_small row_liberal_loaded 1967%Z
             ltac:(left; reflexivity) eq_refl).
Defined.


(** Witness of X20. *)
Lemma current_task_is_stripped_witness :
  exists s : string,
    current_task_description
      (self (snd (process completion_hello render None "Hi there"
                    (mkWorld (agent_with_task (PyStr.nl ++ "Say hello")) []))))
    = Some s
    /\ PyStr.strip s = s.
Proof.
  exact (current_task_is_stripped completion_hello render None "Hi there"
           (mkWorld (agent_with_task (PyStr.nl ++ "Say hello")) [])
           ltac:(discriminate)).
Defined.

(** Witness of X21: [Agent(ideology="liberal")]. *)
Lemma ideology_persona_names_ideology_witness :
  exists text : string,
    persona agent_liberal = Some text
    /\ PyStr.contains "liberal" text = true.
Proof.
  exact (ideology_persona_names_ideology render query_by_state csv_small
           (Some mapping_small) presets_small (args_ideology "liberal") 0%Q
           agent_liberal "liberal" mapping_small
           (mkDetails "Your ideology is" (Some ["Not sure"]) None)
           eq_refl eq_refl eq_refl ltac:(discriminate) eq_refl
           ltac:(simpl; tauto)
           ltac:(intros bad v Hb Hv; injection Hb as <-;
                 destruct Hv as [<- | []]; reflexivity)
           eq_refl eq_refl).
Defined.

(** Witness of X22: [Agent(persona="random")]. *)
Lemma random_persona_is_drawn_from_whole_dataset_witness :
  exists (r : row) (text : string),
    sample 0%Q (DATASET csv_small) = Ret r
    /\ In r (DATASET csv_small)
    /\ _row2persona r (Some mapping_small) = Ret text
    /\ (text <> "" /\ persona agent_random = Some text
        \/ text = "" /\ persona agent_random = None).
Proof.
  exact (random_persona_is_drawn_from_whole_dataset render query_by_state
           csv_small (Some mapping_small) presets_small
           (args_persona "random") 0%Q agent_random eq_refl eq_refl eq_refl).
Defined.

(** ** A query that cannot be evaluated, and calls in sequence *)

Section QueryAndSequence.

Variable completion : string -> list message -> kwargs_t -> external response.
Variable fmt : string -> list (string * option string) -> string.
Variable query : DataFrame -> string -> external DataFrame.
Variable csv : DataFrame.
Variable PERSONA_MAPPING : option mapping.
Variable DEFAULTS : presets.

(** X23.  When the query string is the selector and pandas cannot evaluate
    it, construction fails with the library's own error, unchanged: unlike
    the ideology filter, the query is not wrapped in a handler. *)
Theorem failing_query_error_propagates (args : init_args) (u : Q)
  (q msg : string) :
  arg_system_instructions args = None ->
  PyStr.truthy (arg_persona args) = false ->
  PyStr.truthy (arg_ideology args) = false ->
  arg_query_str args = Some q -> q <> "" ->
  PERSONA_MAPPING <> None ->
  _validate_templates (init_attributes csv PERSONA_MAPPING DEFAULTS args)
  = Ret tt ->
  query (DATASET csv) q = Failed msg ->
  __init__ fmt query csv PERSONA_MAPPING DEFAULTS args u
  = Raise (LibraryError msg).
Proof.
  intros Hs Hp Hi Hq Hne Hm Ht Hf.
  assert (Hqt : PyStr.truthy (Some q) = true)
    by (destruct q; [contradiction | reflexivity]).
  unfold __init__. rewrite Ht. cbn [obind].
  assert (Hv : _validate_system_instructions
                 (init_attributes csv PERSONA_MAPPING DEFAULTS args) = Ret tt).
  { unfold _validate_system_instructions, assert. read_attributes.
    rewrite Hi, Hq, Hqt, Hp, Hs.
    destruct PERSONA_MAPPING; [reflexivity | contradiction]. }
  rewrite Hv. cbn [obind].
  rewrite (_set_system_instructions_propagates fmt query u _
             (LibraryError msg)); try reflexivity; read_attributes;
    try assumption.
  - rewrite Hi, Hq, Hqt. reflexivity.
  - unfold selected_row. read_attributes. rewrite Hi, Hq, Hqt.
    cbn [PyStr.str]. rewrite Hf. reflexivity.
Qed.

(** X24.  Previous responses accumulate from call to call: a second call
    of [process] with previous responses joins its block to the text the
    first call left (when that text is not empty), not to the original
    task; and a later call with no previous responses resets the current
    task to the original one, which the calls never changed. *)
Theorem previous_responses_accumulate (prev1 prev2 : string) (w : world)
  (s1 : string) :
  let w1 := snd (process completion fmt None prev1 w) in
  prev2 <> "" ->
  current_task_description (self w1) = Some s1 -> s1 <> "" ->
  current_task_description
    (self (snd (process completion fmt None prev2 w1)))
  = Some (PyStr.strip
            (s1 ++ PyStr.nl
             ++ fmt (PyStr.str (combination_instructions (self w)))
                    [("previous_responses", Some prev2)]))
  /\ current_task_description
       (self (snd (process completion fmt None "" w1)))
     = original_task_description (self w).
Proof.
  intros w1 Hp2 Hc1 Hne.
  assert (Hci : combination_instructions (self w1)
                = combination_instructions (self w)).
  { unfold w1, process.
    destruct (_get_response_identity completion
                (current_task_description
                   (update_task fmt None prev1 (self w)))
                (mkWorld (update_task fmt None prev1 (self w)) (stdout w)))
      as (_ & _ & _ & _ & _ & G & _).
    destruct (update_task_identity fmt None prev1 (self w))
      as (_ & _ & _ & _ & _ & U & _).
    cbn zeta in G, U. cbn [self] in G. congruence. }
  assert (Ho : original_task_description (self w1)
               = original_task_description (self w)).
  { unfold w1, process.
    match goal with
    | |- context [_get_response completion ?t ?w'] =>
        destruct (_get_response_keeps_tasks completion t w') as [_ H]
    end.
    rewrite H. cbn [self]. unfold update_task. destruct prev1; reflexivity. }
  split.
  - unfold process at 1.
    match goal with
    | |- context [_get_response completion ?t ?w'] =>
        destruct (_get_response_keeps_tasks completion t w') as [H _]
    end.
    rewrite H. cbn [self]. unfold update_task.
    destruct prev2 as [|c p]; [contradiction|].
    cbn [PyStr.nonempty]. rewrite Hc1, Hci.
    destruct s1; [contradiction | reflexivity].
  - unfold process at 1.
    match goal with
    | |- context [_get_response completion ?t ?w'] =>
        destruct (_get_response_keeps_tasks completion t w') as [H _]
    end.
    rewrite H. cbn [self]. unfold update_task. cbn. exact Ho.
Qed.

End QueryAndSequence.

(** A query evaluator that understands no expression. *)
Lemma failing_query_error_propagates_witness :
  __init__ render (fun _ _ => Failed "invalid syntax") csv_small
    (Some mapping_small) presets_small (args_query "inputstate = = 3") 0%Q
  = Raise (LibraryError "invalid syntax").
Proof.
  exact (failing_query_error_propagates render
           (fun _ _ => Failed "invalid syntax") csv_small
           (Some mapping_small) presets_small
           (args_query "inputstate = = 3") 0%Q "inputstate = = 3"
           "invalid syntax" eq_refl eq_refl eq_refl eq_refl
           ltac:(discriminate) ltac:(discriminate) eq_refl eq_refl).
Defined.

(** Witness of X24: two rounds of previous responses, then a reset. *)
Lemma previous_responses_accumulate_witness :
  let w1 := snd (process completion_hello render None "first"
                   (mkWorld (agent_with_task "Say hello") [])) in
  current_task_description
    (self (snd (process completion_hello render None "second" w1)))
  = Some ("Say hello" ++ PyStr.nl ++ "Previous: first" ++ PyStr.nl
          ++ "Previous: second")
  /\ current_task_description
       (self (snd (process completion_hello render None "" w1)))
     = Some "Say hello".
Proof.
  exact (previous_responses_accumulate completion_hello render "first"
           "second" (mkWorld (agent_with_task "Say hello") [])
           ("Say hello" ++ PyStr.nl ++ "Previous: first")
           ltac:(discriminate) eq_refl ltac:(discriminate)).
Defined.
